(** * package-docs-server: the tool handlers of [src/index.ts]

    A shallow embedding of the two request handlers of the server (the
    tool listing and the tool call) together with the fragment of
    JavaScript and of the axios client they rely on: dynamically typed JSON
    values, property access that throws on [undefined]/[null], optional
    chaining, truthiness, template-literal string conversion and the
    TypeError it can throw, the comparison [> 0], [String.prototype.replace]
    with a string pattern, [Array.prototype.join], [Object.entries], and a
    [get] that follows redirects.

    Modelling conventions.
    - A JavaScript string is a [string]; one character of the model stands
      for one UTF-16 code unit (those below 256 are covered).
    - A number is a double.  The handlers observe a number only through the
      text that ToString gives it and through its sign, so the model keeps
      these two and nothing else.
    - A parsed JSON object is the list of its own properties in insertion
      order, with pairwise distinct keys, which is what [JSON.parse] builds.
    - The members a value inherits from its prototype matter for the one
      computed key of the program, [versions[latestVersion]]; they are
      listed as ECMAScript 2024 has them.
    - The trace of a call is the list of the HTTP requests it sends, the
      followed redirects included.
    - Every section of a document is appended to [docs] by one statement
      (the project links by a header, a loop and a closing line feed).  The
      model keeps these blocks apart, each labelled with its section;
      [document_text] concatenates them in order, which is the string the
      source builds. *)

From Stdlib Require Import String Ascii List ZArith Lia Bool DecimalString.
From Stdlib Require Import Sorting.Sorted Sorting.Permutation.
Import ListNotations.
Local Open Scope string_scope.
Set Warnings "-register-all".

(** ** JavaScript values *)

Inductive sign : Type :=
| Negative
| Zero
| Positive.

(** A number, as the handlers can observe it: the text of ToString and the
    sign ([Zero] for [0] and [-0]). *)
Record number : Type := {
  num_text : string;
  num_sign : sign
}.

(** Values that are not data of a parsed response, the members a value
    inherits: a built-in function, or a prototype object with the text
    ToString gives it. *)
Inductive builtin : Type :=
| BFunction (name : string)
| BPrototype (text : string).

Inductive value : Type :=
| VUndefined
| VNull
| VBool (b : bool)
| VNum (n : number)
| VStr (s : string)
| VArr (elems : list value)
| VObj (props : list (string * value))
| VBuiltin (b : builtin).

Inductive error_code : Type :=
| InternalError
| MethodNotFound.

(** What a handler can throw.  An [McpError] carries the code and the
    message its constructor is given. *)
Inductive exn : Type :=
| TypeError
| AxiosError (message : string)
| McpError (code : error_code) (message : string).

Inductive result (A : Type) : Type :=
| Ok (a : A)
| Throw (e : exn).

Arguments Ok {A} a.
Arguments Throw {A} e.

Definition bind {A B : Type} (r : result A) (k : A -> result B) : result B :=
  match r with
  | Ok a => k a
  | Throw e => Throw e
  end.

Notation "x <- r ;; k" := (bind r (fun x => k))
  (at level 61, r at next level, right associativity).

(** The line feed of the template literals. *)
Definition nl : string := String (ascii_of_nat 10) "".

(** ** Coercions *)

Definition nullish (v : value) : bool :=
  match v with
  | VUndefined | VNull => true
  | _ => false
  end.

Definition is_zero (n : number) : bool :=
  match num_sign n with
  | Zero => true
  | _ => false
  end.

Definition is_positive (n : number) : bool :=
  match num_sign n with
  | Positive => true
  | _ => false
  end.

(** ToBoolean. *)
Definition truthy (v : value) : bool :=
  match v with
  | VUndefined | VNull => false
  | VBool b => b
  | VNum n => negb (is_zero n)
  | VStr s => negb (s =? "")
  | VArr _ | VObj _ | VBuiltin _ => true
  end.

Definition string_of_Z (z : Z) : string := NilZero.string_of_int (Z.to_int z).

Definition string_of_nat (n : nat) : string := string_of_Z (Z.of_nat n).

(** The number of elements of an array or of code units of a string. *)
Definition number_of_nat (n : nat) : number :=
  {| num_text := string_of_nat n;
     num_sign := match n with O => Zero | S _ => Positive end |}.

Fixpoint assoc (k : string) (props : list (string * value)) : option value :=
  match props with
  | [] => None
  | (k', v) :: rest => if k' =? k then Some v else assoc k rest
  end.

(** Whether ToString returns.  A parsed response holds no function, so an
    object with an own [toString] has no method to call, and [valueOf]
    (own and not callable, or inherited and returning the object) does not
    help: the conversion throws.  An array is converted by [join], which
    converts its elements. *)
Fixpoint printable (v : value) : bool :=
  match v with
  | VObj props =>
      match assoc "toString" props with
      | Some _ => false
      | None => true
      end
  | VArr elems => forallb (fun e => nullish e || printable e) elems
  | _ => true
  end.

Definition builtin_to_string (b : builtin) : string :=
  match b with
  | BFunction name => "function " ++ name ++ "() { [native code] }"
  | BPrototype text => text
  end.

(** The text ToString gives a value it can convert.  An array converts as
    [join(",")] does. *)
Fixpoint to_string (v : value) : string :=
  match v with
  | VUndefined => "undefined"
  | VNull => "null"
  | VBool true => "true"
  | VBool false => "false"
  | VNum n => num_text n
  | VStr s => s
  | VArr elems =>
      String.concat ","
        (map (fun e => if nullish e then "" else to_string e) elems)
  | VObj _ => "[object Object]"
  | VBuiltin b => builtin_to_string b
  end.

(** ToString, as applied by a template literal [`${v}`] and to a computed
    property key. *)
Definition ToString (v : value) : result string :=
  if printable v then Ok (to_string v) else Throw TypeError.

(** The text of [elems.join(sep)]: [undefined] and [null] elements become
    the empty string. *)
Definition array_join (sep : string) (elems : list value) : string :=
  String.concat sep (map (fun e => if nullish e then "" else to_string e) elems).

(** ** Strings *)

Fixpoint drop (n : nat) (s : string) : string :=
  match n, s with
  | O, _ => s
  | S _, EmptyString => EmptyString
  | S n', String _ s' => drop n' s'
  end.

(** [s.replace(pat, rep)] with a string pattern: only the first occurrence
    of [pat] is replaced.  ([rep] holds no [$] pattern in this program.) *)
Fixpoint str_replace (pat rep s : string) : string :=
  if prefix pat s then rep ++ drop (String.length pat) s
  else match s with
       | EmptyString => EmptyString
       | String c s' => String c (str_replace pat rep s')
       end.

(** [s.includes(pat)]. *)
Fixpoint includes (pat s : string) : bool :=
  prefix pat s ||
  match s with
  | EmptyString => false
  | String _ s' => includes pat s'
  end.

Definition is_digit (c : ascii) : bool :=
  let n := nat_of_ascii c in (48 <=? n)%nat && (n <=? 57)%nat.

Fixpoint digits_value (acc : N) (s : string) : option N :=
  match s with
  | EmptyString => Some acc
  | String c s' =>
      if is_digit c
      then digits_value (acc * 10 + N.of_nat (nat_of_ascii c - 48))%N s'
      else None
  end.

(** An array index: the canonical decimal form of an integer below
    [2^32 - 1].  Such keys are enumerated first, in numeric order. *)
Definition array_index (k : string) : option N :=
  match k with
  | EmptyString => None
  | String c rest =>
      if (c =? "0")%char && negb (rest =? "") then None
      else match digits_value 0 k with
           | Some n => if (n <? 4294967295)%N then Some n else None
           | None => None
           end
  end.

Definition is_array_index (k : string) : bool :=
  match array_index k with
  | Some _ => true
  | None => false
  end.

(** White space: space, tab to carriage return, no-break space. *)
Definition is_space (c : ascii) : bool :=
  let n := nat_of_ascii c in
  (n =? 32)%nat || ((9 <=? n)%nat && (n <=? 13)%nat) || (n =? 160)%nat.

Fixpoint trim_left (s : string) : string :=
  match s with
  | String c s' => if is_space c then trim_left s' else s
  | EmptyString => EmptyString
  end.

Fixpoint rev_string (acc s : string) : string :=
  match s with
  | EmptyString => acc
  | String c s' => rev_string (String c acc) s'
  end.

Definition trim (s : string) : string :=
  rev_string "" (trim_left (rev_string "" (trim_left s))).

(** *** Numeric strings

    StringToNumber, as far as [> 0] needs it: whether the string is a
    numeric literal whose value is a positive number. *)

(** The leading decimal digits of a string, and what follows them. *)
Fixpoint span_digits (s : string) : string * string :=
  match s with
  | String c s' =>
      if is_digit c
      then let (digits, rest) := span_digits s' in (String c digits, rest)
      else (EmptyString, s)
  | EmptyString => (EmptyString, EmptyString)
  end.

Fixpoint all_chars (ok : ascii -> bool) (s : string) : bool :=
  match s with
  | EmptyString => true
  | String c s' => ok c && all_chars ok s'
  end.

Fixpoint some_char (ok : ascii -> bool) (s : string) : bool :=
  match s with
  | EmptyString => false
  | String c s' => ok c || some_char ok s'
  end.

Definition is_hex_digit (c : ascii) : bool :=
  let n := nat_of_ascii c in
  is_digit c || ((65 <=? n)%nat && (n <=? 70)%nat)
  || ((97 <=? n)%nat && (n <=? 102)%nat).

Definition is_octal_digit (c : ascii) : bool :=
  let n := nat_of_ascii c in (48 <=? n)%nat && (n <=? 55)%nat.

Definition is_binary_digit (c : ascii) : bool :=
  let n := nat_of_ascii c in (48 <=? n)%nat && (n <=? 49)%nat.

Definition not_zero (c : ascii) : bool := negb (c =? "0")%char.

(** [0x], [0o] and [0b] literals: at least one digit, no sign. *)
Definition non_decimal_positive (s : string) : option bool :=
  match s with
  | String "0" (String p digits) =>
      let literal ok :=
        match digits with
        | EmptyString => None
        | _ => if all_chars ok digits then Some (some_char not_zero digits) else None
        end in
      if ((p =? "x") || (p =? "X"))%char then literal is_hex_digit
      else if ((p =? "o") || (p =? "O"))%char then literal is_octal_digit
      else if ((p =? "b") || (p =? "B"))%char then literal is_binary_digit
      else None
  | _ => None
  end.

(** The exponent part: nothing, or [e]/[E], an optional sign and digits. *)
Definition exponent_value (s : string) : option Z :=
  match s with
  | EmptyString => Some 0%Z
  | String c s' =>
      if ((c =? "e") || (c =? "E"))%char then
        match s' with
        | EmptyString => None
        | String "-" digits =>
            match digits with
            | EmptyString => None
            | _ => option_map (fun n => Z.opp (Z.of_N n)) (digits_value 0 digits)
            end
        | String "+" digits =>
            match digits with
            | EmptyString => None
            | _ => option_map Z.of_N (digits_value 0 digits)
            end
        | digits => option_map Z.of_N (digits_value 0 digits)
        end
      else None
  end.

(** Whether [mantissa * 10^scale] rounds to a number above zero: it must
    exceed half of the least positive double, [2^-1075]. *)
Definition rounds_above_zero (mantissa : N) (scale : Z) : bool :=
  if (mantissa =? 0)%N then false
  else if (0 <=? scale)%Z then true
  else (10 ^ (- scale) <? Z.of_N mantissa * 2 ^ 1075)%Z.

(** An unsigned decimal literal: [Infinity], or digits with an optional
    fraction and exponent, with a digit before or after the point. *)
Definition unsigned_decimal_positive (s : string) : option bool :=
  if s =? "Infinity" then Some true
  else
    let (int_part, rest) := span_digits s in
    let (frac_part, rest') :=
      match rest with
      | String "." after => span_digits after
      | _ => (EmptyString, rest)
      end in
    match int_part ++ frac_part with
    | EmptyString => None
    | digits =>
        match digits_value 0 digits, exponent_value rest' with
        | Some mantissa, Some e =>
            Some (rounds_above_zero mantissa
                    (e - Z.of_nat (String.length frac_part)))
        | _, _ => None
        end
    end.

(** [StringToNumber(s) > 0]; a string that is no numeric literal is NaN. *)
Definition string_positive (s : string) : bool :=
  match trim s with
  | EmptyString => false
  | String "-" _ => false
  | String "+" s' =>
      match unsigned_decimal_positive s' with
      | Some b => b
      | None => false
      end
  | s' =>
      match non_decimal_positive s' with
      | Some b => b
      | None =>
          match unsigned_decimal_positive s' with
          | Some b => b
          | None => false
          end
      end
  end.

(** [v > 0].  An object or an array is first converted to a primitive: its
    [valueOf] gives none, so its string is taken, which can throw. *)
Definition greater_than_zero (v : value) : result bool :=
  match v with
  | VUndefined | VNull => Ok false
  | VBool b => Ok b
  | VNum n => Ok (is_positive n)
  | VStr s => Ok (string_positive s)
  | VArr _ | VObj _ | VBuiltin _ => s <- ToString v ;; Ok (string_positive s)
  end.

(** ** Property access *)

(** The string-keyed members of the built-in prototypes. *)
Definition object_prototype_names : list string :=
  ["constructor"; "__proto__"; "hasOwnProperty"; "isPrototypeOf";
   "propertyIsEnumerable"; "toLocaleString"; "toString"; "valueOf";
   "__defineGetter__"; "__defineSetter__"; "__lookupGetter__";
   "__lookupSetter__"].

Definition array_prototype_names : list string :=
  ["at"; "concat"; "copyWithin"; "entries"; "every"; "fill"; "filter";
   "find"; "findIndex"; "findLast"; "findLastIndex"; "flat"; "flatMap";
   "forEach"; "includes"; "indexOf"; "join"; "keys"; "lastIndexOf"; "map";
   "pop"; "push"; "reduce"; "reduceRight"; "reverse"; "shift"; "slice";
   "some"; "sort"; "splice"; "toLocaleString"; "toReversed"; "toSorted";
   "toSpliced"; "toString"; "unshift"; "values"; "with"].

Definition string_prototype_names : list string :=
  ["anchor"; "at"; "big"; "blink"; "bold"; "charAt"; "charCodeAt";
   "codePointAt"; "concat"; "endsWith"; "fixed"; "fontcolor"; "fontsize";
   "includes"; "indexOf"; "isWellFormed"; "italics"; "lastIndexOf"; "link";
   "localeCompare"; "match"; "matchAll"; "normalize"; "padEnd"; "padStart";
   "repeat"; "replace"; "replaceAll"; "search"; "slice"; "small"; "split";
   "startsWith"; "strike"; "sub"; "substr"; "substring"; "sup";
   "toLocaleLowerCase"; "toLocaleUpperCase"; "toLowerCase"; "toString";
   "toUpperCase"; "toWellFormed"; "trim"; "trimEnd"; "trimLeft";
   "trimRight"; "trimStart"; "valueOf"].

Definition number_prototype_names : list string :=
  ["toExponential"; "toFixed"; "toLocaleString"; "toPrecision"; "toString";
   "valueOf"].

Definition boolean_prototype_names : list string := ["toString"; "valueOf"].

(** The member named [k] that a value inherits, when its prototype has the
    members [names] on top of those of [Object.prototype], its constructor
    is called [constructor] and its prototype prints as [text]. *)
Definition inherited (names : list string) (constructor text : string)
           (k : string) : option builtin :=
  if k =? "constructor" then Some (BFunction constructor)
  else if k =? "__proto__" then Some (BPrototype text)
  else if existsb (String.eqb k) (names ++ object_prototype_names)
       then Some (BFunction k)
       else None.

Definition inherited_value (names : list string) (constructor text : string)
           (k : string) : value :=
  match inherited names constructor text k with
  | Some b => VBuiltin b
  | None => VUndefined
  end.

(** [v[k]] on a value that is neither [undefined] nor [null]: an own
    property, or else an inherited member.  The program reads only
    [homepage], [repository] and [keywords] from a value that can be an
    inherited member, and no such member has them. *)
Definition get_prop (v : value) (k : string) : value :=
  match v with
  | VObj props =>
      match assoc k props with
      | Some x => x
      | None => inherited_value [] "Object" "[object Object]" k
      end
  | VArr elems =>
      if k =? "length" then VNum (number_of_nat (List.length elems))
      else match array_index k with
           | Some i =>
               match nth_error elems (N.to_nat i) with
               | Some x => x
               | None => VUndefined
               end
           | None => inherited_value array_prototype_names "Array" "" k
           end
  | VStr s =>
      if k =? "length" then VNum (number_of_nat (String.length s))
      else match array_index k with
           | Some i =>
               match String.get (N.to_nat i) s with
               | Some c => VStr (String c "")
               | None => VUndefined
               end
           | None => inherited_value string_prototype_names "String" "" k
           end
  | VNum _ => inherited_value number_prototype_names "Number" "0" k
  | VBool _ => inherited_value boolean_prototype_names "Boolean" "false" k
  | VUndefined | VNull | VBuiltin _ => VUndefined
  end.

(** [v.k] and [v[k]]: a TypeError on [undefined] and [null]. *)
Definition get (v : value) (k : string) : result value :=
  if nullish v then Throw TypeError else Ok (get_prop v k).

(** [v?.k]. *)
Definition get_opt (v : value) (k : string) : value :=
  if nullish v then VUndefined else get_prop v k.

(** [v.replace(pat, rep)]: only a string has the method; a parsed response
    holds no function, so every other receiver throws. *)
Definition call_replace (v : value) (pat rep : string) : result string :=
  match v with
  | VStr s => Ok (str_replace pat rep s)
  | _ => Throw TypeError
  end.

(** [v.join(sep)]: only an array has the method; it converts the elements,
    which can throw. *)
Definition call_join (v : value) (sep : string) : result string :=
  match v with
  | VArr elems =>
      if printable (VArr elems) then Ok (array_join sep elems)
      else Throw TypeError
  | _ => Throw TypeError
  end.

(** ** Object.entries *)

Definition index_of (k : string) : N :=
  match array_index k with
  | Some n => n
  | None => 0%N
  end.

Fixpoint insert_entry (e : string * value) (l : list (string * value))
  : list (string * value) :=
  match l with
  | [] => [e]
  | e' :: rest =>
      if (index_of (fst e) <=? index_of (fst e'))%N then e :: l
      else e' :: insert_entry e rest
  end.

Definition sort_entries (l : list (string * value)) : list (string * value) :=
  fold_right insert_entry [] l.

(** The own properties in enumeration order: array indices in ascending
    numeric order, then the other keys in insertion order. *)
Definition own_entries (props : list (string * value)) : list (string * value) :=
  sort_entries (filter (fun e => is_array_index (fst e)) props)
  ++ filter (fun e => negb (is_array_index (fst e))) props.

Fixpoint indexed (i : nat) (elems : list value) : list (string * value) :=
  match elems with
  | [] => []
  | e :: rest => (string_of_nat i, e) :: indexed (S i) rest
  end.

Definition object_entries (v : value) : result (list (string * value)) :=
  match v with
  | VUndefined | VNull => Throw TypeError
  | VObj props => Ok (own_entries props)
  | VArr elems => Ok (indexed 0 elems)
  | VStr s =>
      Ok (indexed 0 (map (fun c => VStr (String c "")) (list_ascii_of_string s)))
  | VBool _ | VNum _ | VBuiltin _ => Ok []
  end.

(** ** Documents *)

Inductive section : Type :=
| Title
| Description
| Summary
| Installation
| Homepage
| Repository
| ProjectLinks
| Keywords
| Documentation.

Definition block : Type := (section * string)%type.

Definition document : Type := list block.

Definition sections (docs : document) : list section := map fst docs.

Definition document_text (docs : document) : string :=
  String.concat "" (map snd docs).

(** [docs += text], where the statement writes section [s]. *)
Definition append (docs : document) (s : section) (text : string) : document :=
  (docs ++ [(s, text)])%list.

Definition install_text (tool package : string) : string :=
  "## Installation" ++ nl ++ nl ++ "```bash" ++ nl
  ++ tool ++ " install " ++ package ++ nl ++ "```" ++ nl ++ nl.

Definition install_block (tool : string) (package_name : value) : string :=
  install_text tool (to_string package_name).

(** [`- ${name}: ${url}\n`] *)
Definition link_item (e : string * value) : string :=
  "- " ++ fst e ++ ": " ++ to_string (snd e) ++ nl.

(** The loop over the entries: one [docs +=] each, converting the URL. *)
Fixpoint links (entries : list (string * value)) (docs : string) : result string :=
  match entries with
  | [] => Ok docs
  | e :: rest =>
      url <- ToString (snd e) ;;
      links rest (docs ++ "- " ++ fst e ++ ": " ++ url ++ nl)
  end.

(** The project links: the header, the loop, a line feed. *)
Definition links_block (entries : list (string * value)) : result string :=
  body <- links entries ("## Project Links" ++ nl) ;;
  Ok (body ++ nl).

(** ** Rendering an npm record (lines 89 to 115) *)

Definition npm_render (package_name data : value) : result document :=
  dist_tags <- get data "dist-tags" ;;
  latestVersion <- get dist_tags "latest" ;;
  versions <- get data "versions" ;;
  key <- ToString latestVersion ;;
  latestData <- get versions key ;;
  name <- get data "name" ;;
  name <- ToString name ;;
  version <- ToString latestVersion ;;
  let docs := [(Title, "# " ++ name ++ " v" ++ version ++ nl ++ nl)] in
  description <- get data "description" ;;
  docs <-
    (if truthy description
     then description <- ToString description ;;
          Ok (append docs Description (description ++ nl ++ nl))
     else Ok docs) ;;
  package <- ToString package_name ;;
  let docs := append docs Installation (install_text "npm" package) in
  homepage <- get latestData "homepage" ;;
  docs <-
    (if truthy homepage
     then homepage <- ToString homepage ;;
          Ok (append docs Homepage ("## Homepage" ++ nl ++ homepage ++ nl ++ nl))
     else Ok docs) ;;
  repository <- get latestData "repository" ;;
  docs <-
    (if truthy (get_opt repository "url")
     then repository <- get latestData "repository" ;;
          url <- get repository "url" ;;
          shown <- call_replace url "git+" "" ;;
          Ok (append docs Repository ("## Repository" ++ nl ++ shown ++ nl ++ nl))
     else Ok docs) ;;
  keywords <- get latestData "keywords" ;;
  some <- greater_than_zero (get_opt keywords "length") ;;
  docs <-
    (if some
     then keywords <- get latestData "keywords" ;;
          joined <- call_join keywords ", " ;;
          Ok (append docs Keywords ("## Keywords" ++ nl ++ joined ++ nl ++ nl))
     else Ok docs) ;;
  readme <- get data "readme" ;;
  docs <-
    (if truthy readme
     then readme <- ToString readme ;;
          Ok (append docs Documentation ("## Documentation" ++ nl ++ nl ++ readme ++ nl))
     else Ok docs) ;;
  Ok docs.

(** ** Rendering a PyPI record (lines 140 to 169) *)

Definition pypi_render (package_name data : value) : result document :=
  info <- get data "info" ;;
  name <- get info "name" ;;
  name <- ToString name ;;
  version <- get info "version" ;;
  version <- ToString version ;;
  let docs := [(Title, "# " ++ name ++ " v" ++ version ++ nl ++ nl)] in
  summary <- get info "summary" ;;
  docs <-
    (if truthy summary
     then summary <- ToString summary ;;
          Ok (append docs Summary (summary ++ nl ++ nl))
     else Ok docs) ;;
  package <- ToString package_name ;;
  let docs := append docs Installation (install_text "pip" package) in
  home_page <- get info "home_page" ;;
  docs <-
    (if truthy home_page
     then home_page <- ToString home_page ;;
          Ok (append docs Homepage ("## Homepage" ++ nl ++ home_page ++ nl ++ nl))
     else Ok docs) ;;
  project_urls <- get info "project_urls" ;;
  docs <-
    (if truthy project_urls
     then entries <- object_entries project_urls ;;
          text <- links_block entries ;;
          Ok (append docs ProjectLinks text)
     else Ok docs) ;;
  keywords <- get info "keywords" ;;
  docs <-
    (if truthy keywords
     then keywords <- ToString keywords ;;
          Ok (append docs Keywords ("## Keywords" ++ nl ++ keywords ++ nl ++ nl))
     else Ok docs) ;;
  description <- get info "description" ;;
  docs <-
    (if truthy description
     then description <- ToString description ;;
          Ok (append docs Documentation ("## Documentation" ++ nl ++ nl ++ description ++ nl))
     else Ok docs) ;;
  Ok docs.

(** ** The tool listing (lines 43 to 76) *)

Record property_schema : Type := {
  prop_type : string;
  prop_description : string
}.

Record input_schema : Type := {
  schema_type : string;
  properties : list (string * property_schema);
  required : list string
}.

Record tool : Type := {
  tool_name : string;
  tool_description : string;
  inputSchema : input_schema
}.

Definition list_tools : list tool :=
  [ {| tool_name := "get_npm_docs";
       tool_description := "Get documentation and information for an npm package";
       inputSchema :=
         {| schema_type := "object";
            properties :=
              [("package_name",
                {| prop_type := "string";
                   prop_description := "Name of the npm package" |})];
            required := ["package_name"] |} |};
    {| tool_name := "get_pypi_docs";
       tool_description :=
         "Get documentation and information for a Python package from PyPI";
       inputSchema :=
         {| schema_type := "object";
            properties :=
              [("package_name",
                {| prop_type := "string";
                   prop_description := "Name of the Python package" |})];
            required := ["package_name"] |} |} ].

(** ** The registries *)

Inductive client : Type :=
| npmClient
| pypiClient.

Definition baseURL (c : client) : string :=
  match c with
  | npmClient => "https://registry.npmjs.org"
  | pypiClient => "https://pypi.org/pypi"
  end.

(** What answers one HTTP request: no answer at all (DNS, connection
    refused, timeout), or a status, the [Location] header if there is one,
    and a parsed body. *)
Inductive reply : Type :=
| NetworkFailure (message : string)
| HttpResponse (status : Z) (location : option string) (data : value).

(** The answer to a request sent through a client: to the path given to
    [get], or to the location a redirect names. *)
Definition upstream : Type := client -> string -> reply.

(** The requests sent so far, oldest first. *)
Definition trace : Type := list (client * string).

(** A handler step: it reads the registries, may send requests, and returns
    or throws. *)
Definition io (A : Type) : Type := upstream -> trace -> result A * trace.

Definition io_ret {A : Type} (a : A) : io A := fun _ tr => (Ok a, tr).

Definition io_throw {A : Type} (e : exn) : io A := fun _ tr => (Throw e, tr).

Definition io_bind {A B : Type} (m : io A) (k : A -> io B) : io B :=
  fun up tr =>
    match m up tr with
    | (Ok a, tr') => k a up tr'
    | (Throw e, tr') => (Throw e, tr')
    end.

Definition io_lift {A : Type} (r : result A) : io A := fun _ tr => (r, tr).

(** [try { body } catch (error) { handler }] *)
Definition try_catch {A : Type} (body : io A) (handler : exn -> io A) : io A :=
  fun up tr =>
    match body up tr with
    | (Ok a, tr') => (Ok a, tr')
    | (Throw e, tr') => handler e up tr'
    end.

Notation "x <~ m ;; k" := (io_bind m (fun x => k))
  (at level 61, m at next level, right associativity).

(** The redirects a request follows before it gives up: the clients are
    created without [maxRedirects], which leaves the default. *)
Definition maxRedirects : nat := 21.

(** Where a reply sends the request on: any status from 300 to 399 that
    comes with a [Location]. *)
Definition redirect_target (r : reply) : option string :=
  match r with
  | HttpResponse status (Some location) _ =>
      if ((300 <=? status) && (status <? 400))%Z && negb (location =? "")
      then Some location
      else None
  | _ => None
  end.

(** One request and the redirects it is sent through.  The default
    [validateStatus] rejects the final status unless it is in [200..299]. *)
Fixpoint follow (redirects : nat) (c : client) (target : string) : io value :=
  fun up tr =>
    let tr' := (tr ++ [(c, target)])%list in
    match redirect_target (up c target), up c target with
    | Some next, _ =>
        match redirects with
        | O => (Throw (AxiosError "Maximum number of redirects exceeded"), tr')
        | S redirects' => follow redirects' c next up tr'
        end
    | None, NetworkFailure message => (Throw (AxiosError message), tr')
    | None, HttpResponse status _ data =>
        if ((200 <=? status) && (status <? 300))%Z
        then (Ok data, tr')
        else (Throw (AxiosError ("Request failed with status code "
                                 ++ string_of_Z status)), tr')
    end.

(** [client.get(path)].  A path that starts with two slashes is taken as a
    URL of its own, without the base URL, and is not a valid one: a
    TypeError, before anything is sent. *)
Definition axios_get (c : client) (path : string) : io value :=
  fun up tr =>
    if prefix "//" path then (Throw TypeError, tr)
    else follow maxRedirects c path up tr.

Definition isAxiosError (e : exn) : bool :=
  match e with
  | AxiosError _ => true
  | _ => false
  end.

Definition error_message (e : exn) : string :=
  match e with
  | AxiosError message => message
  | McpError _ message => message
  | TypeError => ""
  end.

(** ** The tool call (lines 81 to 194) *)

Record request : Type := {
  name : string;
  arguments : value
}.

Record content_block : Type := {
  type : string;
  text : string
}.

Record tool_result : Type := {
  content : list content_block
}.

Definition text_result (docs : document) : tool_result :=
  {| content := [ {| type := "text"; text := document_text docs |} ] |}.

(** [catch (error)] of both cases: an AxiosError becomes an McpError, any
    other exception is thrown again. *)
Definition rethrow (what : string) (error : exn) : io tool_result :=
  if isAxiosError error
  then io_throw (McpError InternalError
                   ("Failed to fetch " ++ what ++ " package info: "
                    ++ error_message error))
  else io_throw error.

Definition call_tool (r : request) : io tool_result :=
  if name r =? "get_npm_docs" then
    package_name <~ io_lift (get (arguments r) "package_name") ;;
    try_catch
      (package <~ io_lift (ToString package_name) ;;
       data <~ axios_get npmClient ("/" ++ package) ;;
       docs <~ io_lift (npm_render package_name data) ;;
       io_ret (text_result docs))
      (rethrow "npm")
  else if name r =? "get_pypi_docs" then
    package_name <~ io_lift (get (arguments r) "package_name") ;;
    try_catch
      (package <~ io_lift (ToString package_name) ;;
       data <~ axios_get pypiClient ("/" ++ package ++ "/json") ;;
       docs <~ io_lift (pypi_render package_name data) ;;
       io_ret (text_result docs))
      (rethrow "PyPI")
  else
    io_throw (McpError MethodNotFound ("Unknown tool: " ++ name r)).

(** ** The documents, section by section

    A second description of what the two renderers build, as the
    concatenation of the blocks in their fixed places, and of the bodies
    they throw on; the renderers are proved equal to it below
    ([npm_render_spec], [pypi_render_spec]). *)

Definition opt_block (emit : bool) (s : section) (text : string) : document :=
  if emit then [(s, text)] else [].

(** [versions[latestVersion]], read without throwing. *)
Definition latest_version (data : value) : value :=
  get_opt (get_opt data "dist-tags") "latest".

Definition latest_entry (data : value) : value :=
  get_opt (get_opt data "versions") (to_string (latest_version data)).

Definition repository_url (data : value) : value :=
  get_opt (get_opt (latest_entry data) "repository") "url".

Definition is_string (v : value) : bool :=
  match v with
  | VStr _ => true
  | _ => false
  end.

Definition is_array (v : value) : bool :=
  match v with
  | VArr _ => true
  | _ => false
  end.

(** A field that is printed (it is truthy) and cannot be converted. *)
Definition unshowable (v : value) : bool := truthy v && negb (printable v).

Definition has_keywords (data : value) : bool :=
  match greater_than_zero (get_opt (get_opt (latest_entry data) "keywords") "length") with
  | Ok some => some
  | Throw _ => false
  end.

(** The comparison of line 109 throws, or it holds and line 110 throws. *)
Definition keywords_fault (data : value) : bool :=
  let keywords := get_opt (latest_entry data) "keywords" in
  match greater_than_zero (get_opt keywords "length") with
  | Ok true => negb (is_array keywords && printable keywords)
  | Ok false => false
  | Throw _ => true
  end.

(** The inputs on which lines 89 to 115 throw a TypeError. *)
Definition npm_faults (package_name data : value) : bool :=
  nullish (get_opt data "dist-tags")
  || negb (printable (latest_version data))
  || nullish (latest_entry data)
  || negb (printable (get_opt data "name"))
  || unshowable (get_opt data "description")
  || negb (printable package_name)
  || unshowable (get_opt (latest_entry data) "homepage")
  || (truthy (repository_url data) && negb (is_string (repository_url data)))
  || keywords_fault data
  || unshowable (get_opt data "readme").

Definition shown_url (url : value) : string :=
  match url with
  | VStr s => str_replace "git+" "" s
  | _ => ""
  end.

Definition joined_keywords (keywords : value) : string :=
  match keywords with
  | VArr elems => array_join ", " elems
  | _ => ""
  end.

Definition npm_document (package_name data : value) : document :=
  let entry := latest_entry data in
  List.concat
    [ [(Title, "# " ++ to_string (get_opt data "name") ++ " v"
            ++ to_string (latest_version data) ++ nl ++ nl)];
      opt_block (truthy (get_opt data "description")) Description
        (to_string (get_opt data "description") ++ nl ++ nl);
      [(Installation, install_block "npm" package_name)];
      opt_block (truthy (get_opt entry "homepage")) Homepage
        ("## Homepage" ++ nl ++ to_string (get_opt entry "homepage") ++ nl ++ nl);
      opt_block (truthy (repository_url data)) Repository
        ("## Repository" ++ nl ++ shown_url (repository_url data) ++ nl ++ nl);
      opt_block (has_keywords data) Keywords
        ("## Keywords" ++ nl ++ joined_keywords (get_opt entry "keywords") ++ nl ++ nl);
      opt_block (truthy (get_opt data "readme")) Documentation
        ("## Documentation" ++ nl ++ nl ++ to_string (get_opt data "readme") ++ nl) ].

Definition pypi_info (data : value) : value := get_opt data "info".

Definition project_urls (data : value) : value :=
  get_opt (pypi_info data) "project_urls".

Definition entries_of (v : value) : list (string * value) :=
  match object_entries v with
  | Ok entries => entries
  | Throw _ => []
  end.

(** The inputs on which lines 140 to 169 throw a TypeError. *)
Definition pypi_faults (package_name data : value) : bool :=
  let info := pypi_info data in
  nullish info
  || negb (printable (get_opt info "name"))
  || negb (printable (get_opt info "version"))
  || unshowable (get_opt info "summary")
  || negb (printable package_name)
  || unshowable (get_opt info "home_page")
  || (truthy (project_urls data)
      && negb (forallb (fun e => printable (snd e)) (entries_of (project_urls data))))
  || unshowable (get_opt info "keywords")
  || unshowable (get_opt info "description").

Definition pypi_document (package_name data : value) : document :=
  let info := pypi_info data in
  List.concat
    [ [(Title, "# " ++ to_string (get_opt info "name") ++ " v"
            ++ to_string (get_opt info "version") ++ nl ++ nl)];
      opt_block (truthy (get_opt info "summary")) Summary
        (to_string (get_opt info "summary") ++ nl ++ nl);
      [(Installation, install_block "pip" package_name)];
      opt_block (truthy (get_opt info "home_page")) Homepage
        ("## Homepage" ++ nl ++ to_string (get_opt info "home_page") ++ nl ++ nl);
      opt_block (truthy (project_urls data)) ProjectLinks
        ("## Project Links" ++ nl
         ++ String.concat "" (map link_item (entries_of (project_urls data))) ++ nl);
      opt_block (truthy (get_opt info "keywords")) Keywords
        ("## Keywords" ++ nl ++ to_string (get_opt info "keywords") ++ nl ++ nl);
      opt_block (truthy (get_opt info "description")) Documentation
        ("## Documentation" ++ nl ++ nl ++ to_string (get_opt info "description") ++ nl) ].

(** The order of the sections of each registry. *)
Definition npm_order : list section :=
  [Title; Description; Installation; Homepage; Repository; Keywords; Documentation].

Definition pypi_order : list section :=
  [Title; Summary; Installation; Homepage; ProjectLinks; Keywords; Documentation].

Definition section_eqb (a b : section) : bool :=
  match a, b with
  | Title, Title | Description, Description | Summary, Summary
  | Installation, Installation | Homepage, Homepage | Repository, Repository
  | ProjectLinks, ProjectLinks | Keywords, Keywords
  | Documentation, Documentation => true
  | _, _ => false
  end.

(** [l] is [order] with some sections left out. *)
Fixpoint is_subsequence (l order : list section) : bool :=
  match l, order with
  | [], _ => true
  | _ :: _, [] => false
  | a :: l', b :: order' =>
      if section_eqb a b then is_subsequence l' order'
      else is_subsequence l order'
  end.

(** [a] comes before [b] in [l]. *)
Definition before (a b : section) (l : list section) : Prop :=
  exists l1 l2 l3, l = (l1 ++ a :: l2 ++ b :: l3)%list.

(** The path a tool asks its registry for. *)
Definition route (tool_name package : string) : option (client * string) :=
  if tool_name =? "get_npm_docs"
  then Some (npmClient, "/" ++ package)
  else if tool_name =? "get_pypi_docs"
  then Some (pypiClient, "/" ++ package ++ "/json")
  else None.

(** The request a tool sends for a package name, when it sends one: the
    name must convert to a string, and the path must not start with two
    slashes. *)
Definition endpoint (tool_name : string) (package_name : value)
  : option (client * string) :=
  if printable package_name then
    match route tool_name (to_string package_name) with
    | Some (c, path) => if prefix "//" path then None else Some (c, path)
    | None => None
    end
  else None.

(** The message of the AxiosError a reply is rejected with, if it is: no
    answer, or a status outside [200..299] that is not a redirect to
    follow. *)
Definition transport_failure (r : reply) : option string :=
  match redirect_target r, r with
  | Some _, _ => None
  | None, NetworkFailure message => Some message
  | None, HttpResponse status _ _ =>
      if ((200 <=? status) && (status <? 300))%Z then None
      else Some ("Request failed with status code " ++ string_of_Z status)
  end.

(** The name of a registry in the error messages. *)
Definition registry_label (c : client) : string :=
  match c with
  | npmClient => "npm"
  | pypiClient => "PyPI"
  end.

(** The command of the Installation block. *)
Definition installer (c : client) : string :=
  match c with
  | npmClient => "npm"
  | pypiClient => "pip"
  end.

(** The renderer, the document and the section order of a registry. *)
Definition render_of (c : client) : value -> value -> result document :=
  match c with
  | npmClient => npm_render
  | pypiClient => pypi_render
  end.

Definition document_of (c : client) : value -> value -> document :=
  match c with
  | npmClient => npm_document
  | pypiClient => pypi_document
  end.

Definition order_of (c : client) : list section :=
  match c with
  | npmClient => npm_order
  | pypiClient => pypi_order
  end.

Definition section_eq_dec (a b : section) : {a = b} + {a <> b}.
Proof. decide equality. Defined.

(** The statuses that the default [validateStatus] accepts. *)
Definition successful (status : Z) : Prop := (200 <= status < 300)%Z.

(** The place of a section in the documents of either registry. *)
Definition rank (s : section) : nat :=
  match s with
  | Title => 0
  | Description | Summary => 1
  | Installation => 2
  | Homepage => 3
  | Repository | ProjectLinks => 4
  | Keywords => 5
  | Documentation => 6
  end.

(** Ascending array indices. *)
Definition index_le (a b : string * value) : Prop :=
  (index_of (fst a) <= index_of (fst b))%N.

(** The bodies on which a renderer throws before it has read a record:
    no [dist-tags] or no entry under the looked-up key, no [info]. *)
Definition schema_mismatch (c : client) (data : value) : bool :=
  match c with
  | npmClient => nullish (get_opt data "dist-tags") || nullish (latest_entry data)
  | pypiClient => nullish (pypi_info data)
  end.

(** ** The handler as a whole *)

(** The tool names the listing announces. *)
Definition listed (n : string) : bool :=
  existsb (String.eqb n) (map tool_name list_tools).

(** The bodies a renderer throws on. *)
Definition render_faults (c : client) (package_name data : value) : bool :=
  match c with
  | npmClient => npm_faults package_name data
  | pypiClient => pypi_faults package_name data
  end.

(** The requests of [client.get(path)] and what it resolves to or rejects
    with, whatever was sent before. *)
Definition fetched (c : client) (path : string) (up : upstream) : result value :=
  fst (axios_get c path up []).

Definition sent (c : client) (path : string) (up : upstream) : trace :=
  snd (axios_get c path up []).

Arguments fetched : simpl never.
Arguments sent : simpl never.

(** The first line of a document, and the field its last section prints. *)
Definition title_of (c : client) (data : value) : string :=
  match c with
  | npmClient =>
      "# " ++ to_string (get_opt data "name") ++ " v"
      ++ to_string (latest_version data) ++ nl ++ nl
  | pypiClient =>
      "# " ++ to_string (get_opt (pypi_info data) "name") ++ " v"
      ++ to_string (get_opt (pypi_info data) "version") ++ nl ++ nl
  end.

Definition readme_of (c : client) (data : value) : value :=
  match c with
  | npmClient => get_opt data "readme"
  | pypiClient => get_opt (pypi_info data) "description"
  end.

(** ** Sample records *)

Definition sparse_npm_record : value :=
  VObj [("name", VStr "a");
        ("dist-tags", VObj [("latest", VStr "1.2.3")]);
        ("versions", VObj [("1.2.3", VObj [("homepage", VStr "https://x")])]);
        ("readme", VStr "Read me")].

Definition full_npm_record : value :=
  VObj [("name", VStr "b"); ("description", VStr "A package");
        ("dist-tags", VObj [("latest", VStr "2.0.0")]);
        ("versions",
         VObj [("2.0.0",
                VObj [("homepage", VStr "https://y");
                      ("repository",
                       VObj [("type", VStr "git");
                             ("url", VStr "git+https://github.com/a/b.git")]);
                      ("keywords", VArr [VStr "k1"; VStr "k2"])])]);
        ("readme", VStr "Manual")].

Definition pypi_record (urls : value) : value :=
  VObj [("info", VObj [("name", VStr "demo"); ("version", VStr "1.0");
                       ("project_urls", urls)])].

Definition pypi_record_with_links : value :=
  pypi_record (VObj [("Docs", VStr "https://d"); ("Source", VStr "https://s")]).

Definition pypi_record_numbered_link : value :=
  pypi_record (VObj [("Docs", VStr "https://d"); ("2", VStr "https://s")]).

Definition pypi_record_no_links : value := pypi_record (VObj []).

Definition npm_record_with_url (url : string) : value :=
  VObj [("name", VStr "pkg");
        ("dist-tags", VObj [("latest", VStr "1.0.0")]);
        ("versions",
         VObj [("1.0.0",
                VObj [("repository",
                       VObj [("type", VStr "git"); ("url", VStr url)])])])].

(** * Properties *)

(** ** Strings *)

Lemma append_nil_r (s : string) : s ++ "" = s.
Proof. induction s; simpl; congruence. Qed.

Lemma append_assoc (a b c : string) : (a ++ b) ++ c = a ++ (b ++ c).
Proof. induction a; simpl; congruence. Qed.

(** ** Property access *)

Lemma get_opt_nullish (v : value) (k : string) :
  nullish v = true -> get_opt v k = VUndefined.
Proof. unfold get_opt. now intros ->. Qed.

Lemma get_not_nullish (v : value) (k : string) :
  nullish v = false -> get v k = Ok (get_opt v k).
Proof. unfold get, get_opt. now intros ->. Qed.

Lemma get_nullish (v : value) (k : string) :
  nullish v = true -> get v k = Throw TypeError.
Proof. unfold get. now intros ->. Qed.

Lemma truthy_not_nullish (v : value) : truthy v = true -> nullish v = false.
Proof. destruct v; simpl; congruence. Qed.

Lemma truthy_get_opt (v : value) (k : string) :
  truthy (get_opt v k) = true -> nullish v = false.
Proof.
  unfold get_opt. destruct (nullish v); simpl; congruence.
Qed.

Lemma greater_than_zero_get_opt (v : value) (k : string) :
  greater_than_zero (get_opt v k) = Ok true -> nullish v = false.
Proof.
  unfold get_opt. destruct (nullish v); [discriminate | reflexivity].
Qed.

Lemma ToString_printable (v : value) :
  printable v = true -> ToString v = Ok (to_string v).
Proof. unfold ToString. now intros ->. Qed.

Lemma ToString_unprintable (v : value) :
  printable v = false -> ToString v = Throw TypeError.
Proof. unfold ToString. now intros ->. Qed.

Lemma ToString_ok (v : value) (s : string) :
  ToString v = Ok s -> printable v = true /\ s = to_string v.
Proof.
  unfold ToString. destruct (printable v); [| discriminate].
  intros [= <-]. auto.
Qed.

Lemma greater_than_zero_throws (v : value) (e : exn) :
  greater_than_zero v = Throw e -> e = TypeError.
Proof.
  destruct v; simpl; try discriminate;
    unfold ToString; match goal with |- context [printable ?x] => destruct (printable x) end;
    simpl; congruence.
Qed.

(** ** The renderers build the documents above *)

(** A printed field: the block is appended, or the conversion throws. *)
Lemma print_field (v : value) (docs : document) (s : section)
      (text : string -> string) (k : document -> result document) :
  (docs' <- (if truthy v
             then shown <- ToString v ;; Ok (append docs s (text shown))
             else Ok docs) ;; k docs')
  = if unshowable v then Throw TypeError
    else k (docs ++ opt_block (truthy v) s (text (to_string v)))%list.
Proof.
  unfold unshowable, ToString, opt_block, append.
  destruct (truthy v), (printable v); simpl; try reflexivity.
  all: now rewrite app_nil_r.
Qed.

Lemma npm_render_spec (package_name data : value) :
  npm_render package_name data =
  if npm_faults package_name data then Throw TypeError
  else Ok (npm_document package_name data).
Proof.
  unfold npm_render, npm_faults, npm_document, has_keywords, keywords_fault,
    repository_url, latest_entry, latest_version, install_block.
  destruct (nullish data) eqn:Hdata.
  { rewrite (get_nullish _ _ Hdata), (get_opt_nullish data "dist-tags" Hdata).
    reflexivity. }
  rewrite !(get_not_nullish data) by assumption. cbn [bind].
  set (tags := get_opt data "dist-tags").
  destruct (nullish tags) eqn:Htags.
  { now rewrite (get_nullish _ _ Htags). }
  rewrite (get_not_nullish tags) by assumption. cbn [bind orb].
  set (latest := get_opt tags "latest").
  set (versions := get_opt data "versions").
  destruct (printable latest) eqn:Hlatest.
  2:{ now rewrite (ToString_unprintable _ Hlatest). }
  rewrite !(ToString_printable _ Hlatest). cbn [bind negb orb].
  destruct (nullish versions) eqn:Hversions.
  { rewrite (get_nullish _ _ Hversions), (get_opt_nullish versions _ Hversions).
    reflexivity. }
  rewrite (get_not_nullish versions) by assumption. cbn [bind].
  set (entry := get_opt versions (to_string latest)).
  destruct (printable (get_opt data "name")) eqn:Hname.
  2:{ rewrite (ToString_unprintable _ Hname). cbn [bind negb].
      now rewrite orb_true_r. }
  rewrite (ToString_printable _ Hname). cbn [bind negb].
  rewrite orb_false_r.
  rewrite print_field.
  destruct (unshowable (get_opt data "description")).
  { now rewrite orb_true_r. }
  rewrite orb_false_r.
  destruct (printable package_name) eqn:Hpkg.
  2:{ rewrite (ToString_unprintable _ Hpkg). cbn [bind negb].
      now rewrite orb_true_r. }
  rewrite (ToString_printable _ Hpkg). cbn [bind negb]. rewrite orb_false_r.
  destruct (nullish entry) eqn:Hentry.
  { now rewrite (get_nullish _ _ Hentry). }
  rewrite !(get_not_nullish entry) by assumption. cbn [bind orb].
  rewrite print_field.
  destruct (unshowable (get_opt entry "homepage")); [reflexivity |].
  cbn [orb].
  set (url := get_opt (get_opt entry "repository") "url").
  set (keywords := get_opt entry "keywords").
  assert (Hrepo :
    forall (docs : document) (k : document -> result document),
      (docs' <- (if truthy url
                 then u <- get (get_opt entry "repository") "url" ;;
                      shown <- call_replace u "git+" "" ;;
                      Ok (append docs Repository
                            ("## Repository" ++ nl ++ shown ++ nl ++ nl))
                 else Ok docs) ;; k docs')
      = if truthy url && negb (is_string url) then Throw TypeError
        else k (docs ++ opt_block (truthy url) Repository
                          ("## Repository" ++ nl ++ shown_url url ++ nl ++ nl))%list).
  { intros docs k. unfold opt_block, append. destruct (truthy url) eqn:Hurl.
    - pose proof (truthy_get_opt _ _ Hurl) as Hr. cbn [bind].
      rewrite (get_not_nullish _ "url" Hr). fold url. cbn [bind andb].
      destruct url; reflexivity.
    - cbn [bind andb]. now rewrite app_nil_r. }
  rewrite Hrepo. clear Hrepo.
  destruct (truthy url && negb (is_string url)); [reflexivity |]. cbn [orb].
  destruct (greater_than_zero (get_opt keywords "length")) as [[|] | e] eqn:Hgt;
    cbn [bind].
  - destruct keywords; cbn [call_join is_array andb negb bind orb]; try reflexivity.
    destruct (printable (VArr elems)); cbn [bind negb orb]; [| reflexivity].
    rewrite print_field.
    destruct (unshowable (get_opt data "readme")); [reflexivity |].
    unfold append. cbn [joined_keywords opt_block]. f_equal.
    simpl List.concat. now rewrite <- !app_assoc, ?app_nil_r.
  - rewrite print_field.
    destruct (unshowable (get_opt data "readme")); [reflexivity |].
    unfold append. cbn [opt_block]. f_equal.
    simpl List.concat. now rewrite <- !app_assoc, ?app_nil_r.
  - now rewrite (greater_than_zero_throws _ _ Hgt).
Qed.

Lemma concat_empty_cons (x : string) (xs : list string) :
  String.concat "" (x :: xs) = x ++ String.concat "" xs.
Proof.
  destruct xs; simpl; [now rewrite append_nil_r | reflexivity].
Qed.

Lemma links_spec (entries : list (string * value)) (acc : string) :
  links entries acc
  = if forallb (fun e => printable (snd e)) entries
    then Ok (acc ++ String.concat "" (map link_item entries))
    else Throw TypeError.
Proof.
  revert acc. induction entries as [| e rest IH]; intros acc.
  - simpl. now rewrite append_nil_r.
  - cbn [links forallb map]. unfold ToString.
    destruct (printable (snd e)); cbn [bind andb]; [| reflexivity].
    rewrite IH. destruct (forallb (fun e => printable (snd e)) rest); [| reflexivity].
    f_equal. rewrite concat_empty_cons. unfold link_item at 2.
    now rewrite !append_assoc.
Qed.

Lemma links_block_items (entries : list (string * value)) :
  links_block entries
  = if forallb (fun e => printable (snd e)) entries
    then Ok ("## Project Links" ++ nl
             ++ String.concat "" (map link_item entries) ++ nl)
    else Throw TypeError.
Proof.
  unfold links_block. rewrite links_spec.
  destruct (forallb (fun e => printable (snd e)) entries); cbn [bind];
    [| reflexivity].
  now rewrite !append_assoc.
Qed.

Lemma object_entries_truthy (v : value) :
  truthy v = true -> object_entries v = Ok (entries_of v).
Proof.
  unfold entries_of. destruct v; simpl; congruence.
Qed.

Lemma pypi_render_spec (package_name data : value) :
  pypi_render package_name data =
  if pypi_faults package_name data then Throw TypeError
  else Ok (pypi_document package_name data).
Proof.
  unfold pypi_render, pypi_faults, pypi_document, project_urls, pypi_info,
    install_block.
  destruct (nullish data) eqn:Hdata.
  { rewrite (get_nullish _ _ Hdata), (get_opt_nullish data "info" Hdata).
    reflexivity. }
  rewrite (get_not_nullish data) by assumption. cbn [bind].
  set (info := get_opt data "info").
  destruct (nullish info) eqn:Hinfo.
  { now rewrite (get_nullish _ _ Hinfo). }
  rewrite !(get_not_nullish info) by assumption. cbn [bind orb].
  destruct (printable (get_opt info "name")) eqn:Hname.
  2:{ now rewrite (ToString_unprintable _ Hname). }
  rewrite (ToString_printable _ Hname). cbn [bind negb orb].
  destruct (printable (get_opt info "version")) eqn:Hversion.
  2:{ now rewrite (ToString_unprintable _ Hversion). }
  rewrite (ToString_printable _ Hversion). cbn [bind negb orb].
  rewrite print_field.
  destruct (unshowable (get_opt info "summary")); [reflexivity |]. cbn [orb].
  destruct (printable package_name) eqn:Hpkg.
  2:{ now rewrite (ToString_unprintable _ Hpkg). }
  rewrite (ToString_printable _ Hpkg). cbn [bind negb orb].
  rewrite print_field.
  destruct (unshowable (get_opt info "home_page")); [reflexivity |]. cbn [orb].
  set (urls := get_opt info "project_urls").
  destruct (truthy urls) eqn:Hurls.
  - rewrite (object_entries_truthy _ Hurls). cbn [bind andb].
    rewrite links_block_items.
    destruct (forallb (fun e => printable (snd e)) (entries_of urls));
      cbn [bind negb orb]; [| reflexivity].
    rewrite print_field.
    destruct (unshowable (get_opt info "keywords")); [reflexivity |]. cbn [orb].
    rewrite print_field.
    destruct (unshowable (get_opt info "description")); [reflexivity |].
    unfold append. cbn [opt_block]. f_equal.
    simpl List.concat. now rewrite <- !app_assoc, ?app_nil_r.
  - cbn [bind andb orb].
    rewrite print_field.
    destruct (unshowable (get_opt info "keywords")); [reflexivity |]. cbn [orb].
    rewrite print_field.
    destruct (unshowable (get_opt info "description")); [reflexivity |].
    unfold append. cbn [opt_block]. f_equal.
    simpl List.concat. now rewrite <- !app_assoc, ?app_nil_r.
Qed.

Lemma render_of_cases (c : client) (package_name data : value) :
  render_of c package_name data
  = if render_faults c package_name data then Throw TypeError
    else Ok (document_of c package_name data).
Proof.
  destruct c; simpl; [apply npm_render_spec | apply pypi_render_spec].
Qed.

Lemma render_of_spec (c : client) (package_name data : value) (docs : document) :
  render_of c package_name data = Ok docs ->
  docs = document_of c package_name data.
Proof.
  rewrite render_of_cases.
  destruct (render_faults c package_name data); congruence.
Qed.

Lemma render_of_throws (c : client) (package_name data : value) (e : exn) :
  render_of c package_name data = Throw e -> e = TypeError.
Proof.
  rewrite render_of_cases.
  destruct (render_faults c package_name data); congruence.
Qed.

(** ** Requests and redirects *)

Lemma follow_trace (n : nat) (c : client) (target : string)
      (up : upstream) (tr : trace) :
  follow n c target up tr
  = (fst (follow n c target up []), (tr ++ snd (follow n c target up []))%list).
Proof.
  revert target tr. induction n as [| n IH]; intros target tr; simpl.
  - destruct (redirect_target (up c target)); [reflexivity |].
    destruct (up c target) as [m | status loc data]; [reflexivity |].
    destruct ((200 <=? status)%Z && (status <? 300)%Z); reflexivity.
  - destruct (redirect_target (up c target)) as [next |].
    + rewrite (IH next (tr ++ [(c, target)])%list), (IH next [(c, target)]).
      simpl. now rewrite <- app_assoc.
    + destruct (up c target) as [m | status loc data]; [reflexivity |].
      destruct ((200 <=? status)%Z && (status <? 300)%Z); reflexivity.
Qed.

Lemma axios_get_trace (c : client) (path : string) (up : upstream) (tr : trace) :
  axios_get c path up tr = (fetched c path up, (tr ++ sent c path up)%list).
Proof.
  unfold fetched, sent, axios_get.
  destruct (prefix "//" path); cbn [fst snd].
  - now rewrite app_nil_r.
  - apply follow_trace.
Qed.

Lemma redirect_target_successful (status : Z) (location : option string) (data : value) :
  successful status -> redirect_target (HttpResponse status location data) = None.
Proof.
  unfold successful. intros H. simpl. destruct location; [| reflexivity].
  destruct (Z.leb_spec 300 status); [lia | reflexivity].
Qed.

Lemma transport_failure_successful
      (status : Z) (location : option string) (data : value) :
  successful status -> transport_failure (HttpResponse status location data) = None.
Proof.
  intros H. unfold transport_failure.
  rewrite (redirect_target_successful _ _ _ H).
  unfold successful in H.
  destruct (Z.leb_spec 200 status), (Z.ltb_spec status 300);
    simpl; try reflexivity; lia.
Qed.

Lemma follow_final (n : nat) (c : client) (target : string)
      (up : upstream) (tr : trace) :
  redirect_target (up c target) = None ->
  follow n c target up tr
  = (match up c target with
     | NetworkFailure message => Throw (AxiosError message)
     | HttpResponse status _ data =>
         if ((200 <=? status) && (status <? 300))%Z then Ok data
         else Throw (AxiosError ("Request failed with status code "
                                 ++ string_of_Z status))
     end, (tr ++ [(c, target)])%list).
Proof.
  intros H. destruct n; simpl; rewrite H;
    destruct (up c target) as [m | status loc data]; try reflexivity;
    destruct ((200 <=? status)%Z && (status <? 300)%Z); reflexivity.
Qed.

Lemma follow_failure (n : nat) (c : client) (target : string)
      (up : upstream) (tr : trace) (message : string) :
  transport_failure (up c target) = Some message ->
  follow n c target up tr = (Throw (AxiosError message), (tr ++ [(c, target)])%list).
Proof.
  unfold transport_failure. intros H.
  destruct (redirect_target (up c target)) eqn:Hr; [discriminate |].
  rewrite (follow_final n c target up tr Hr).
  destruct (up c target) as [m | status loc data].
  - now injection H as <-.
  - destruct ((200 <=? status)%Z && (status <? 300)%Z); [discriminate |].
    now injection H as <-.
Qed.

Lemma follow_success (n : nat) (c : client) (target : string)
      (up : upstream) (tr : trace)
      (status : Z) (location : option string) (data : value) :
  up c target = HttpResponse status location data ->
  successful status ->
  follow n c target up tr = (Ok data, (tr ++ [(c, target)])%list).
Proof.
  intros Hup Hok.
  rewrite (follow_final n c target up tr)
    by (rewrite Hup; now apply redirect_target_successful).
  rewrite Hup. unfold successful in Hok.
  destruct (Z.leb_spec 200 status), (Z.ltb_spec status 300);
    simpl; try reflexivity; lia.
Qed.

(** What a request and its redirects can end in, and what they send. *)
Lemma follow_outcome (n : nat) (c : client) (target : string) (up : upstream) :
  let requests := snd (follow n c target up []) in
  hd_error requests = Some (c, target)
  /\ List.length requests <= S n
  /\ Forall (fun q => fst q = c) requests
  /\ (forall e, fst (follow n c target up []) = Throw e ->
        exists message,
          e = AxiosError message
          /\ (message = "Maximum number of redirects exceeded"
              \/ exists last,
                   In (c, last) requests
                   /\ transport_failure (up c last) = Some message)).
Proof.
  cbv zeta. revert target.
  induction n as [| n IH]; intros target.
  - simpl. destruct (redirect_target (up c target)) as [next |] eqn:Hr.
    + simpl. repeat split; auto.
      intros e [= <-]. eauto.
    + assert (Hf := follow_final 0 c target up [] Hr). simpl in Hf.
      rewrite Hr in Hf. rewrite Hf. simpl. repeat split; auto.
      intros e He.
      destruct (transport_failure (up c target)) as [m |] eqn:Ht.
      * pose proof (follow_failure 0 c target up [] m Ht) as Hm.
        simpl in Hm. rewrite Hr in Hm. rewrite Hf in Hm.
        injection Hm as Hm. rewrite Hm in He. injection He as <-.
        exists m. split; [reflexivity |]. right. exists target. now split; [left |].
      * unfold transport_failure in Ht. rewrite Hr in Ht.
        destruct (up c target) as [m | status loc data]; [discriminate |].
        destruct ((200 <=? status)%Z && (status <? 300)%Z); discriminate.
  - simpl. destruct (redirect_target (up c target)) as [next |] eqn:Hr.
    + rewrite (follow_trace n c next up [(c, target)]). simpl.
      destruct (IH next) as (Hhd & Hlen & Hall & Hthrow).
      repeat split; auto.
      * lia.
      * intros e He. destruct (Hthrow e He) as (m & -> & Hm).
        exists m. split; [reflexivity |].
        destruct Hm as [-> | (last & Hin & Hfail)]; [now left | right].
        exists last. split; [now right | assumption].
    + assert (Hf := follow_final (S n) c target up [] Hr). simpl in Hf.
      rewrite Hr in Hf. rewrite Hf. simpl. repeat split; auto; try lia.
      intros e He.
      destruct (transport_failure (up c target)) as [m |] eqn:Ht.
      * pose proof (follow_failure (S n) c target up [] m Ht) as Hm.
        simpl in Hm. rewrite Hr in Hm. rewrite Hf in Hm.
        injection Hm as Hm. rewrite Hm in He. injection He as <-.
        exists m. split; [reflexivity |]. right. exists target. now split; [left |].
      * unfold transport_failure in Ht. rewrite Hr in Ht.
        destruct (up c target) as [m | status loc data]; [discriminate |].
        destruct ((200 <=? status)%Z && (status <? 300)%Z); discriminate.
Qed.

(** ** The handler, case by case *)

Lemma route_cases (tool_name package : string) (c : client) (path : string) :
  route tool_name package = Some (c, path) ->
  (tool_name = "get_npm_docs" /\ c = npmClient /\ path = "/" ++ package)
  \/ (tool_name = "get_pypi_docs" /\ c = pypiClient
      /\ path = "/" ++ package ++ "/json").
Proof.
  unfold route.
  destruct (String.eqb_spec tool_name "get_npm_docs") as [E | _].
  - intros [= <- <-]. now left.
  - destruct (String.eqb_spec tool_name "get_pypi_docs") as [E | _].
    + intros [= <- <-]. now right.
    + discriminate.
Qed.

Lemma endpoint_route (tool_name : string) (package_name : value)
      (c : client) (path : string) :
  endpoint tool_name package_name = Some (c, path) ->
  printable package_name = true
  /\ route tool_name (to_string package_name) = Some (c, path)
  /\ prefix "//" path = false.
Proof.
  unfold endpoint. destruct (printable package_name); [| discriminate].
  destruct (route tool_name (to_string package_name)) as [[c' path'] |];
    [| discriminate].
  destruct (prefix "//" path') eqn:Hp; [discriminate |].
  intros [= <- <-]. auto.
Qed.

Lemma endpoint_cases (tool_name : string) (package_name : value)
      (c : client) (path : string) :
  endpoint tool_name package_name = Some (c, path) ->
  (tool_name = "get_npm_docs" /\ c = npmClient
   /\ path = "/" ++ to_string package_name)
  \/ (tool_name = "get_pypi_docs" /\ c = pypiClient
      /\ path = "/" ++ to_string package_name ++ "/json").
Proof.
  intros H. apply endpoint_route in H as (_ & H & _). now apply route_cases.
Qed.

(** The case of a listed tool, once the path is known. *)
Lemma call_tool_route (r : request) (up : upstream) (tr : trace)
      (package_name : value) (c : client) (path : string) :
  get (arguments r) "package_name" = Ok package_name ->
  printable package_name = true ->
  route (name r) (to_string package_name) = Some (c, path) ->
  call_tool r up tr =
  (match fetched c path up with
   | Ok data =>
       match render_of c package_name data with
       | Ok docs => Ok (text_result docs)
       | Throw e => Throw e
       end
   | Throw e =>
       if isAxiosError e
       then Throw (McpError InternalError
                     ("Failed to fetch " ++ registry_label c
                      ++ " package info: " ++ error_message e))
       else Throw e
   end, (tr ++ sent c path up)%list).
Proof.
  intros Hget Hprint Hroute.
  destruct (route_cases _ _ _ _ Hroute) as [(Hn & -> & ->) | (Hn & -> & ->)];
    unfold call_tool; rewrite Hn, Hget.
  - change ("get_npm_docs" =? "get_npm_docs") with true. cbv iota.
    unfold io_bind at 1, io_lift at 1, try_catch, io_bind at 1, io_lift at 1.
    rewrite (ToString_printable _ Hprint).
    unfold io_bind at 1. rewrite axios_get_trace.
    destruct (fetched npmClient ("/" ++ to_string package_name) up) as [data | e].
    + unfold io_bind, io_lift, io_ret. cbn [render_of].
      destruct (npm_render package_name data) as [docs | e] eqn:Hr; [reflexivity |].
      pose proof (render_of_throws npmClient _ _ _ Hr) as ->. reflexivity.
    + unfold rethrow, io_throw. cbn [registry_label].
      destruct (isAxiosError e); reflexivity.
  - change ("get_pypi_docs" =? "get_npm_docs") with false.
    change ("get_pypi_docs" =? "get_pypi_docs") with true. cbv iota.
    unfold io_bind at 1, io_lift at 1, try_catch, io_bind at 1, io_lift at 1.
    rewrite (ToString_printable _ Hprint).
    unfold io_bind at 1. rewrite axios_get_trace.
    destruct (fetched pypiClient ("/" ++ to_string package_name ++ "/json") up)
      as [data | e].
    + unfold io_bind, io_lift, io_ret. cbn [render_of].
      destruct (pypi_render package_name data) as [docs | e] eqn:Hr; [reflexivity |].
      pose proof (render_of_throws pypiClient _ _ _ Hr) as ->. reflexivity.
    + unfold rethrow, io_throw. cbn [registry_label].
      destruct (isAxiosError e); reflexivity.
Qed.

Lemma call_tool_fetch (r : request) (up : upstream) (tr : trace)
      (package_name : value) (c : client) (path : string) :
  endpoint (name r) package_name = Some (c, path) ->
  get (arguments r) "package_name" = Ok package_name ->
  call_tool r up tr =
  (match fetched c path up with
   | Ok data =>
       match render_of c package_name data with
       | Ok docs => Ok (text_result docs)
       | Throw e => Throw e
       end
   | Throw e =>
       if isAxiosError e
       then Throw (McpError InternalError
                     ("Failed to fetch " ++ registry_label c
                      ++ " package info: " ++ error_message e))
       else Throw e
   end, (tr ++ sent c path up)%list).
Proof.
  intros Hend Hget. apply endpoint_route in Hend as (Hp & Hr & _).
  now apply call_tool_route.
Qed.

Lemma fetched_follow (c : client) (path : string) (up : upstream) :
  prefix "//" path = false ->
  fetched c path up = fst (follow maxRedirects c path up [])
  /\ sent c path up = snd (follow maxRedirects c path up []).
Proof.
  unfold fetched, sent, axios_get. now intros ->.
Qed.

Lemma fetched_invalid (c : client) (path : string) (up : upstream) :
  prefix "//" path = true ->
  fetched c path up = Throw TypeError /\ sent c path up = [].
Proof.
  unfold fetched, sent, axios_get. now intros ->.
Qed.

Lemma fetched_throws (c : client) (path : string) (up : upstream) (e : exn) :
  fetched c path up = Throw e -> e = TypeError \/ exists message, e = AxiosError message.
Proof.
  destruct (prefix "//" path) eqn:Hp.
  - destruct (fetched_invalid c path up Hp) as [-> _]. intros [= <-]. now left.
  - destruct (fetched_follow c path up Hp) as [-> _]. intros H.
    destruct (follow_outcome maxRedirects c path up) as (_ & _ & _ & Hthrow).
    destruct (Hthrow e H) as (m & -> & _). eauto.
Qed.

Lemma fetched_success (c : client) (path : string) (up : upstream)
      (status : Z) (location : option string) (data : value) :
  prefix "//" path = false ->
  up c path = HttpResponse status location data ->
  successful status ->
  fetched c path up = Ok data /\ sent c path up = [(c, path)].
Proof.
  intros Hp Hup Hok. destruct (fetched_follow c path up Hp) as [-> ->].
  now rewrite (follow_success maxRedirects c path up [] status location data Hup Hok).
Qed.

Lemma fetched_failure (c : client) (path : string) (up : upstream)
      (message : string) :
  prefix "//" path = false ->
  transport_failure (up c path) = Some message ->
  fetched c path up = Throw (AxiosError message) /\ sent c path up = [(c, path)].
Proof.
  intros Hp Hfail. destruct (fetched_follow c path up Hp) as [-> ->].
  now rewrite (follow_failure maxRedirects c path up [] message Hfail).
Qed.

Lemma call_tool_rendered (r : request) (up : upstream) (tr : trace)
      (package_name : value) (c : client) (path : string)
      (status : Z) (location : option string) (data : value) :
  endpoint (name r) package_name = Some (c, path) ->
  get (arguments r) "package_name" = Ok package_name ->
  up c path = HttpResponse status location data ->
  successful status ->
  call_tool r up tr
  = (match render_of c package_name data with
     | Ok docs => Ok (text_result docs)
     | Throw e => Throw e
     end, (tr ++ [(c, path)])%list).
Proof.
  intros Hend Hget Hup Hok.
  rewrite (call_tool_fetch r up tr package_name c path Hend Hget).
  apply endpoint_route in Hend as (_ & _ & Hp).
  destruct (fetched_success c path up status location data Hp Hup Hok) as [-> ->].
  reflexivity.
Qed.

Lemma listed_cases (n : string) :
  listed n = (n =? "get_npm_docs") || (n =? "get_pypi_docs").
Proof.
  unfold listed. simpl. now rewrite orb_false_r.
Qed.

Lemma listed_In (n : string) :
  listed n = true <-> In n (map tool_name list_tools).
Proof.
  unfold listed. rewrite existsb_exists. split.
  - intros (x & Hin & Heq). apply String.eqb_eq in Heq. now subst.
  - intros Hin. exists n. split; [assumption | apply String.eqb_refl].
Qed.

Lemma route_listed (n package : string) :
  listed n = true -> exists c path, route n package = Some (c, path).
Proof.
  rewrite listed_cases. unfold route.
  destruct (n =? "get_npm_docs"); [intros _; eauto |].
  destruct (n =? "get_pypi_docs"); [intros _; eauto | discriminate].
Qed.



Lemma call_tool_unlisted (r : request) (up : upstream) (tr : trace) :
  listed (name r) = false ->
  call_tool r up tr
  = (Throw (McpError MethodNotFound ("Unknown tool: " ++ name r)), tr).
Proof.
  rewrite listed_cases. unfold call_tool.
  destruct (name r =? "get_npm_docs"); [discriminate |].
  destruct (name r =? "get_pypi_docs"); [discriminate | reflexivity].
Qed.

Lemma call_tool_no_arguments (r : request) (up : upstream) (tr : trace) :
  listed (name r) = true ->
  nullish (arguments r) = true ->
  call_tool r up tr = (Throw TypeError, tr).
Proof.
  rewrite listed_cases. intros Hl Hnull. unfold call_tool.
  rewrite (get_nullish _ "package_name" Hnull).
  destruct (name r =? "get_npm_docs"); [reflexivity |].
  destruct (name r =? "get_pypi_docs"); [reflexivity | discriminate].
Qed.

(** A package name that gives no request: it cannot be converted, or its
    path is no URL. *)
Lemma call_tool_no_endpoint (r : request) (up : upstream) (tr : trace)
      (package_name : value) :
  listed (name r) = true ->
  get (arguments r) "package_name" = Ok package_name ->
  endpoint (name r) package_name = None ->
  call_tool r up tr = (Throw TypeError, tr).
Proof.
  intros Hl Hget Hend.
  destruct (printable package_name) eqn:Hp.
  - destruct (route_listed _ (to_string package_name) Hl) as (c & path & Hr).
    rewrite (call_tool_route r up tr package_name c path Hget Hp Hr).
    unfold endpoint in Hend. rewrite Hp, Hr in Hend.
    destruct (prefix "//" path) eqn:Hpath; [| discriminate].
    destruct (fetched_invalid c path up Hpath) as [-> ->].
    simpl. now rewrite app_nil_r.
  - rewrite listed_cases in Hl. unfold call_tool. rewrite Hget.
    destruct (name r =? "get_npm_docs").
    + unfold io_bind at 1, io_lift at 1, try_catch, io_bind at 1, io_lift at 1.
      now rewrite (ToString_unprintable _ Hp).
    + destruct (name r =? "get_pypi_docs"); [| discriminate].
      unfold io_bind at 1, io_lift at 1, try_catch, io_bind at 1, io_lift at 1.
      now rewrite (ToString_unprintable _ Hp).
Qed.

(** Every call is in one of four situations. *)
Lemma call_tool_cases (r : request) (up : upstream) (tr : trace) :
  (listed (name r) = false
   /\ call_tool r up tr
      = (Throw (McpError MethodNotFound ("Unknown tool: " ++ name r)), tr))
  \/ (listed (name r) = true /\ nullish (arguments r) = true
      /\ call_tool r up tr = (Throw TypeError, tr))
  \/ (exists package_name,
        listed (name r) = true
        /\ get (arguments r) "package_name" = Ok package_name
        /\ endpoint (name r) package_name = None
        /\ call_tool r up tr = (Throw TypeError, tr))
  \/ (exists package_name c path,
        listed (name r) = true
        /\ get (arguments r) "package_name" = Ok package_name
        /\ endpoint (name r) package_name = Some (c, path)
        /\ call_tool r up tr
           = (match fetched c path up with
              | Ok data =>
                  if render_faults c package_name data then Throw TypeError
                  else Ok (text_result (document_of c package_name data))
              | Throw e =>
                  if isAxiosError e
                  then Throw (McpError InternalError
                                ("Failed to fetch " ++ registry_label c
                                 ++ " package info: " ++ error_message e))
                  else Throw e
              end, (tr ++ sent c path up)%list)).
Proof.
  destruct (listed (name r)) eqn:Hl.
  - right. destruct (nullish (arguments r)) eqn:Hnull.
    + left. repeat split. now apply call_tool_no_arguments.
    + right. pose proof (get_not_nullish _ "package_name" Hnull) as Hget.
      set (package_name := get_opt (arguments r) "package_name") in *.
      destruct (endpoint (name r) package_name) as [[c path] |] eqn:Hend.
      * right. exists package_name, c, path. repeat split; try assumption.
        rewrite (call_tool_fetch r up tr _ c path Hend Hget).
        destruct (fetched c path up); [| reflexivity].
        rewrite render_of_cases.
        now destruct (render_faults c package_name a).
      * left. exists package_name. repeat split; try assumption.
        now apply (call_tool_no_endpoint r up tr package_name).
  - left. split; [reflexivity | now apply call_tool_unlisted].
Qed.

Lemma call_tool_ok (r : request) (up : upstream) (tr tr' : trace) (res : tool_result) :
  call_tool r up tr = (Ok res, tr') ->
  exists package_name c path data docs,
    get (arguments r) "package_name" = Ok package_name
    /\ endpoint (name r) package_name = Some (c, path)
    /\ fetched c path up = Ok data
    /\ render_of c package_name data = Ok docs
    /\ res = text_result docs
    /\ tr' = (tr ++ sent c path up)%list.
Proof.
  intros H.
  destruct (call_tool_cases r up tr)
    as [[_ E] | [(_ & _ & E) | [(pkg & _ & _ & _ & E)
                               | (pkg & c & path & _ & Hget & Hend & E)]]];
    rewrite E in H; try discriminate.
  destruct (fetched c path up) as [data | e] eqn:Hf.
  - destruct (render_faults c pkg data) eqn:Hbad; [discriminate |].
    injection H as <- <-.
    exists pkg, c, path, data, (document_of c pkg data).
    repeat split; try assumption.
    now rewrite render_of_cases, Hbad.
  - destruct (isAxiosError e); discriminate.
Qed.

(** ** The capability listing *)

(** C9. The listing holds exactly one entry named [get_npm_docs] and exactly
    one named [get_pypi_docs] (and nothing else); the input schema of every
    entry declares the single field [package_name], of type string, and
    marks it required. *)
Theorem list_tools_entries :
  map tool_name list_tools = ["get_npm_docs"; "get_pypi_docs"]
  /\ Forall (fun n => List.length (filter (fun t => tool_name t =? n) list_tools) = 1)
       ["get_npm_docs"; "get_pypi_docs"]
  /\ Forall (fun t =>
               map (fun p => (fst p, prop_type (snd p))) (properties (inputSchema t))
               = [("package_name", "string")]
               /\ required (inputSchema t) = ["package_name"])
       list_tools.
Proof.
  split; [reflexivity | split].
  - repeat constructor.
  - repeat constructor.
Qed.

(** ** Unknown tools *)

(** C3. A call whose tool name is neither [get_npm_docs] nor [get_pypi_docs]
    throws an McpError of code MethodNotFound, whatever the registries would
    answer, and leaves the trace of requests as it was: nothing is fetched. *)
Theorem unknown_tool_method_not_found (r : request) (up : upstream) (tr : trace) :
  name r <> "get_npm_docs" ->
  name r <> "get_pypi_docs" ->
  call_tool r up tr
  = (Throw (McpError MethodNotFound ("Unknown tool: " ++ name r)), tr).
Proof.
  intros Hnpm Hpypi. unfold call_tool.
  destruct (String.eqb_spec (name r) "get_npm_docs") as [E | _]; [contradiction |].
  destruct (String.eqb_spec (name r) "get_pypi_docs") as [E | _]; [contradiction |].
  reflexivity.
Qed.

Lemma unknown_tool_method_not_found_witness :
  let r := {| name := "get_cargo_docs";
              arguments := VObj [("package_name", VStr "serde")] |} in
  let up : upstream := fun _ _ => HttpResponse 200 None (VObj []) in
  name r <> "get_npm_docs" /\ name r <> "get_pypi_docs"
  /\ call_tool r up [(npmClient, "/left-pad")]
     = (Throw (McpError MethodNotFound "Unknown tool: get_cargo_docs"),
        [(npmClient, "/left-pad")]).
Proof.
  cbv zeta. split; [discriminate | split; [discriminate |]].
  apply (unknown_tool_method_not_found
           {| name := "get_cargo_docs";
              arguments := VObj [("package_name", VStr "serde")] |});
    discriminate.
Defined.

(** ** Transport failures *)

(** C4 (amended). For both tools, when [get] rejects with an AxiosError the
    call throws an McpError of code InternalError whose message ends with
    the message of that error, after the requests of the one [get] and no
    other; no document is returned.  This is the case when the request of
    the call gets no answer, or a status outside 200..299 that is not a
    redirect to follow (404 included): then exactly one request was
    sent. *)
Theorem transport_failure_internal_error
        (r : request) (up : upstream) (tr : trace) (package_name : value)
        (c : client) (path : string) :
  endpoint (name r) package_name = Some (c, path) ->
  get (arguments r) "package_name" = Ok package_name ->
  (forall message,
     fetched c path up = Throw (AxiosError message) ->
     call_tool r up tr
     = (Throw (McpError InternalError
                 ("Failed to fetch " ++ registry_label c ++ " package info: "
                  ++ message)),
        (tr ++ sent c path up)%list))
  /\ (forall message,
        transport_failure (up c path) = Some message ->
        call_tool r up tr
        = (Throw (McpError InternalError
                    ("Failed to fetch " ++ registry_label c ++ " package info: "
                     ++ message)),
           (tr ++ [(c, path)])%list)).
Proof.
  intros Hend Hget.
  rewrite (call_tool_fetch r up tr package_name c path Hend Hget).
  apply endpoint_route in Hend as (_ & _ & Hp). split.
  - now intros message ->.
  - intros message Hfail.
    now destruct (fetched_failure c path up message Hp Hfail) as [-> ->].
Qed.

Lemma transport_failure_not_found (location : option string) (data : value) :
  transport_failure (HttpResponse 404 location data)
  = Some "Request failed with status code 404".
Proof. now destruct location. Qed.

Lemma transport_failure_network (message : string) :
  transport_failure (NetworkFailure message) = Some message.
Proof. reflexivity. Qed.

Lemma transport_failure_status (status : Z) (data : value) :
  (status < 200 \/ 300 <= status)%Z ->
  transport_failure (HttpResponse status None data)
  = Some ("Request failed with status code " ++ string_of_Z status).
Proof.
  intros H. unfold transport_failure. cbn [redirect_target].
  destruct (Z.leb_spec 200 status), (Z.ltb_spec status 300);
    simpl; try reflexivity; lia.
Qed.

Lemma transport_failure_internal_error_witness :
  let r := {| name := "get_pypi_docs";
              arguments := VObj [("package_name", VStr "no-such-package")] |} in
  let up : upstream :=
    fun _ _ => HttpResponse 404 None (VObj [("message", VStr "Not Found")]) in
  call_tool r up []
  = (Throw (McpError InternalError
              "Failed to fetch PyPI package info: Request failed with status code 404"),
     [(pypiClient, "/no-such-package/json")]).
Proof.
  cbv zeta.
  apply (transport_failure_internal_error
           {| name := "get_pypi_docs";
              arguments := VObj [("package_name", VStr "no-such-package")] |}
           (fun _ _ => HttpResponse 404 None (VObj [("message", VStr "Not Found")]))
           [] (VStr "no-such-package") pypiClient "/no-such-package/json");
    reflexivity.
Defined.

(** C4, as stated, fails: a status outside 200..299 is not always a
    failure.  A 302 that names a location is followed, and the call returns
    the document found there. *)
Lemma redirect_counterexample :
  let r := {| name := "get_npm_docs";
              arguments := VObj [("package_name", VStr "a")] |} in
  let up : upstream := fun _ target =>
    if target =? "/a"
    then HttpResponse 302 (Some "https://mirror.example/a") (VStr "")
    else HttpResponse 200 None sparse_npm_record in
  up npmClient "/a" = HttpResponse 302 (Some "https://mirror.example/a") (VStr "")
  /\ ~ successful 302
  /\ call_tool r up []
     = (Ok (text_result (npm_document (VStr "a") sparse_npm_record)),
        [(npmClient, "/a"); (npmClient, "https://mirror.example/a")]).
Proof.
  cbv zeta. split; [reflexivity | split].
  - unfold successful. lia.
  - reflexivity.
Qed.

(** ** Blocks and text *)

Lemma concat_empty_app (xs ys : list string) :
  String.concat "" (xs ++ ys) = String.concat "" xs ++ String.concat "" ys.
Proof.
  induction xs as [| x xs IH].
  - reflexivity.
  - change ((x :: xs) ++ ys)%list with (x :: (xs ++ ys)%list).
    now rewrite !concat_empty_cons, IH, append_assoc.
Qed.

Lemma document_text_block (docs : document) (s : section) (t : string) :
  In (s, t) docs ->
  exists front back, document_text docs = front ++ t ++ back.
Proof.
  intros Hin. apply in_split in Hin as (d1 & d2 & ->).
  exists (document_text d1), (document_text d2).
  unfold document_text. now rewrite map_app, concat_empty_app, map_cons, concat_empty_cons.
Qed.

(** ** The installation section *)

Lemma installation_in_document (c : client) (package_name data : value) :
  In (Installation, install_block (installer c) package_name)
     (document_of c package_name data)
  /\ count_occ section_eq_dec (sections (document_of c package_name data)) Installation = 1.
Proof.
  destruct c; simpl; unfold npm_document, pypi_document, opt_block, sections.
  - destruct (truthy (get_opt data "description")),
      (truthy (get_opt (latest_entry data) "homepage")),
      (truthy (repository_url data)), (has_keywords data),
      (truthy (get_opt data "readme")); simpl; intuition auto.
  - destruct (truthy (get_opt (pypi_info data) "summary")),
      (truthy (get_opt (pypi_info data) "home_page")),
      (truthy (project_urls data)), (truthy (get_opt (pypi_info data) "keywords")),
      (truthy (get_opt (pypi_info data) "description")); simpl; intuition auto.
Qed.

(** C6. Every successful call of either tool returns a document with exactly
    one Installation block, whose text is the fixed install command
    ([npm install] or [pip install]) followed by the [package_name] argument
    of the call as the template literal prints it (verbatim for a string);
    the block is built from the argument alone, not from the record, and it
    is there whatever optional fields the record has. *)
Theorem installation_always_emitted
        (r : request) (up : upstream) (tr tr' : trace) (res : tool_result) :
  call_tool r up tr = (Ok res, tr') ->
  exists package_name c path data docs,
    get (arguments r) "package_name" = Ok package_name
    /\ endpoint (name r) package_name = Some (c, path)
    /\ render_of c package_name data = Ok docs
    /\ res = text_result docs
    /\ In (Installation,
           "## Installation" ++ nl ++ nl ++ "```bash" ++ nl
           ++ installer c ++ " install " ++ to_string package_name ++ nl
           ++ "```" ++ nl ++ nl) docs
    /\ count_occ section_eq_dec (sections docs) Installation = 1
    /\ (exists front back,
          document_text docs
          = front ++ ("## Installation" ++ nl ++ nl ++ "```bash" ++ nl
                      ++ installer c ++ " install " ++ to_string package_name ++ nl
                      ++ "```" ++ nl ++ nl) ++ back)
    /\ (forall s, package_name = VStr s -> to_string package_name = s).
Proof.
  intros H.
  destruct (call_tool_ok _ _ _ _ _ H)
    as (package_name & c & path & data & docs & Hget & Hend & _ & Hrender & -> & _).
  exists package_name, c, path, data, docs.
  pose proof (render_of_spec _ _ _ _ Hrender) as ->.
  destruct (installation_in_document c package_name data) as [Hin Hcount].
  repeat split; try assumption.
  - exact (document_text_block _ _ _ Hin).
  - now intros s ->.
Qed.

Lemma installation_always_emitted_witness :
  exists package_name c path data docs,
    get (VObj [("package_name", VStr "@scope/pkg")]) "package_name" = Ok package_name
    /\ endpoint "get_npm_docs" package_name = Some (c, path)
    /\ render_of c package_name data = Ok docs
    /\ text_result
         [(Title, "# resolved-name v1.0.0" ++ nl ++ nl);
          (Installation, install_block "npm" (VStr "@scope/pkg"))]
       = text_result docs
    /\ In (Installation,
           "## Installation" ++ nl ++ nl ++ "```bash" ++ nl
           ++ installer c ++ " install " ++ to_string package_name ++ nl
           ++ "```" ++ nl ++ nl) docs
    /\ count_occ section_eq_dec (sections docs) Installation = 1
    /\ (exists front back,
          document_text docs
          = front ++ ("## Installation" ++ nl ++ nl ++ "```bash" ++ nl
                      ++ installer c ++ " install " ++ to_string package_name ++ nl
                      ++ "```" ++ nl ++ nl) ++ back)
    /\ (forall s, package_name = VStr s -> to_string package_name = s).
Proof.
  apply (installation_always_emitted
           {| name := "get_npm_docs";
              arguments := VObj [("package_name", VStr "@scope/pkg")] |}
           (fun _ _ =>
              HttpResponse 200 None
                (VObj [("name", VStr "resolved-name");
                       ("dist-tags", VObj [("latest", VStr "1.0.0")]);
                       ("versions", VObj [("1.0.0", VObj [])])]))
           [] [(npmClient, "/@scope/pkg")]).
  reflexivity.
Defined.

(** ** The order of the sections *)

Lemma sections_ranked (c : client) (package_name data : value) :
  StronglySorted (fun a b => rank a < rank b)
    (sections (document_of c package_name data)).
Proof.
  destruct c; simpl; unfold npm_document, pypi_document, opt_block, sections.
  - destruct (truthy (get_opt data "description")),
      (truthy (get_opt (latest_entry data) "homepage")),
      (truthy (repository_url data)), (has_keywords data),
      (truthy (get_opt data "readme")); simpl;
      repeat (constructor; simpl; try lia).
  - destruct (truthy (get_opt (pypi_info data) "summary")),
      (truthy (get_opt (pypi_info data) "home_page")),
      (truthy (project_urls data)), (truthy (get_opt (pypi_info data) "keywords")),
      (truthy (get_opt (pypi_info data) "description")); simpl;
      repeat (constructor; simpl; try lia).
Qed.

Lemma sections_subsequence (c : client) (package_name data : value) :
  is_subsequence (sections (document_of c package_name data)) (order_of c) = true.
Proof.
  destruct c; simpl; unfold npm_document, pypi_document, opt_block, sections.
  - destruct (truthy (get_opt data "description")),
      (truthy (get_opt (latest_entry data) "homepage")),
      (truthy (repository_url data)), (has_keywords data),
      (truthy (get_opt data "readme")); reflexivity.
  - destruct (truthy (get_opt (pypi_info data) "summary")),
      (truthy (get_opt (pypi_info data) "home_page")),
      (truthy (project_urls data)), (truthy (get_opt (pypi_info data) "keywords")),
      (truthy (get_opt (pypi_info data) "description")); reflexivity.
Qed.

Section Ranked.

Variable A : Type.
Variable R : A -> A -> Prop.

Lemma sorted_front (l1 l2 : list A) (a : A) :
  StronglySorted R (l1 ++ a :: l2) -> Forall (fun x => R x a) l1.
Proof.
  induction l1 as [| x l1 IH]; simpl; intros H.
  - constructor.
  - inversion H as [| ? ? Hs Hall]; subst. constructor.
    + rewrite Forall_forall in Hall. apply Hall, in_elt.
    + now apply IH.
Qed.

Lemma sorted_back (l1 l2 : list A) (a : A) :
  StronglySorted R (l1 ++ a :: l2) -> Forall (R a) l2.
Proof.
  induction l1 as [| x l1 IH]; simpl; intros H.
  - now inversion H.
  - inversion H; subst. now apply IH.
Qed.

End Ranked.

Lemma before_ranked (a b : section) (l : list section) :
  StronglySorted (fun a b => rank a < rank b) l ->
  before a b l -> rank a < rank b.
Proof.
  intros Hs (l1 & l2 & l3 & ->).
  apply sorted_back in Hs. rewrite Forall_forall in Hs.
  apply Hs, in_elt.
Qed.

Lemma ranked_before (a b : section) (l : list section) :
  StronglySorted (fun a b => rank a < rank b) l ->
  In a l -> In b l -> rank a < rank b -> before a b l.
Proof.
  intros Hs Ha Hb Hlt.
  apply in_split in Ha as (l1 & l2 & ->).
  apply in_app_or in Hb as [Hb | [Hb | Hb]].
  - apply sorted_front in Hs. rewrite Forall_forall in Hs.
    specialize (Hs b Hb). simpl in Hs. lia.
  - subst. lia.
  - apply in_split in Hb as (m1 & m2 & ->). now exists l1, m1, m2.
Qed.

(** C7. The sections of every document of a registry are the fixed list of
    that registry with some sections left out, each at most once; hence two
    sections that both occur in two documents of the same registry occur in
    the same relative order in both. *)
Theorem section_order_fixed
        (c : client) (package1 data1 package2 data2 : value)
        (docs1 docs2 : document) (a b : section) :
  render_of c package1 data1 = Ok docs1 ->
  render_of c package2 data2 = Ok docs2 ->
  is_subsequence (sections docs1) (order_of c) = true
  /\ NoDup (sections docs1)
  /\ (before a b (sections docs1) ->
      In a (sections docs2) -> In b (sections docs2) ->
      before a b (sections docs2)).
Proof.
  intros H1 H2.
  apply render_of_spec in H1 as ->. apply render_of_spec in H2 as ->.
  pose proof (sections_ranked c package1 data1) as S1.
  pose proof (sections_ranked c package2 data2) as S2.
  split; [apply sections_subsequence | split].
  - clear S2. induction S1 as [| x l Hs IH Hall]; constructor; auto.
    intros Hin. rewrite Forall_forall in Hall. specialize (Hall x Hin). lia.
  - intros Hbefore Ha Hb.
    apply (ranked_before a b _ S2 Ha Hb), (before_ranked a b _ S1 Hbefore).
Qed.

Lemma section_order_fixed_witness :
  let docs1 := document_of npmClient (VStr "a") sparse_npm_record in
  let docs2 := document_of npmClient (VStr "b") full_npm_record in
  render_of npmClient (VStr "a") sparse_npm_record = Ok docs1
  /\ render_of npmClient (VStr "b") full_npm_record = Ok docs2
  /\ sections docs1 = [Title; Installation; Homepage; Documentation]
  /\ sections docs2 = npm_order
  /\ is_subsequence (sections docs1) (order_of npmClient) = true
  /\ NoDup (sections docs1)
  /\ (before Homepage Documentation (sections docs1) ->
      In Homepage (sections docs2) -> In Documentation (sections docs2) ->
      before Homepage Documentation (sections docs2)).
Proof.
  cbv zeta.
  split; [reflexivity | split; [reflexivity | split; [reflexivity | split; [reflexivity |]]]].
  apply (section_order_fixed npmClient (VStr "a") sparse_npm_record
           (VStr "b") full_npm_record _ _ Homepage Documentation);
    reflexivity.
Defined.

(** ** Rendering depends on the record alone *)

(** C8. What a call returns is a function of the package name and of the
    record the registry answered with: two calls that receive the same
    record return the same result (the same text, character for character),
    whatever requests were made before and whatever else the registries
    hold; the second of two calls in a row returns what the first did. *)
Theorem rendering_is_pure
        (r : request) (package_name : value) (c : client) (path : string)
        (data : value) (up1 up2 : upstream) (tr1 tr2 : trace)
        (status1 status2 : Z) (location1 location2 : option string) :
  endpoint (name r) package_name = Some (c, path) ->
  get (arguments r) "package_name" = Ok package_name ->
  up1 c path = HttpResponse status1 location1 data -> successful status1 ->
  up2 c path = HttpResponse status2 location2 data -> successful status2 ->
  fst (call_tool r up1 tr1) = fst (call_tool r up2 tr2)
  /\ fst (call_tool r up1 tr1)
     = match render_of c package_name data with
       | Ok docs => Ok (text_result docs)
       | Throw e => Throw e
       end
  /\ fst (call_tool r up1 (snd (call_tool r up1 tr1))) = fst (call_tool r up1 tr1).
Proof.
  intros Hend Hget Hup1 Hok1 Hup2 Hok2.
  rewrite !(call_tool_rendered r up1 _ package_name c path status1 location1 data
              Hend Hget Hup1 Hok1).
  rewrite (call_tool_rendered r up2 _ package_name c path status2 location2 data
             Hend Hget Hup2 Hok2).
  auto.
Qed.

Lemma rendering_is_pure_witness :
  let r := {| name := "get_pypi_docs";
              arguments := VObj [("package_name", VStr "requests")] |} in
  let data := VObj [("info", VObj [("name", VStr "requests");
                                  ("version", VStr "2.31.0");
                                  ("summary", VStr "HTTP for Humans")])] in
  let up1 : upstream := fun _ _ => HttpResponse 200 None data in
  let up2 : upstream := fun c _ =>
    match c with
    | pypiClient => HttpResponse 203 None data
    | npmClient => NetworkFailure "ECONNREFUSED"
    end in
  fst (call_tool r up1 []) = fst (call_tool r up2 [(npmClient, "/left-pad")])
  /\ fst (call_tool r up1 [])
     = match render_of pypiClient (VStr "requests") data with
       | Ok docs => Ok (text_result docs)
       | Throw e => Throw e
       end
  /\ fst (call_tool r up1 (snd (call_tool r up1 []))) = fst (call_tool r up1 []).
Proof.
  cbv zeta.
  apply (rendering_is_pure _ (VStr "requests") pypiClient "/requests/json" _ _ _ _ _
           200 203 None None);
    try reflexivity; unfold successful; lia.
Defined.

(** ** The enumeration order of an object *)

Lemma insert_entry_perm (e : string * value) (l : list (string * value)) :
  Permutation (insert_entry e l) (e :: l).
Proof.
  induction l as [| x l IH]; simpl.
  - apply Permutation_refl.
  - destruct (index_of (fst e) <=? index_of (fst x))%N.
    + apply Permutation_refl.
    + eapply perm_trans; [apply perm_skip, IH | apply perm_swap].
Qed.

Lemma sort_entries_perm (l : list (string * value)) :
  Permutation (sort_entries l) l.
Proof.
  induction l as [| x l IH]; simpl.
  - apply perm_nil.
  - eapply perm_trans; [apply insert_entry_perm | now apply perm_skip].
Qed.

Lemma filter_split_perm {A : Type} (f : A -> bool) (l : list A) :
  Permutation (filter f l ++ filter (fun x => negb (f x)) l) l.
Proof.
  induction l as [| x l IH]; simpl.
  - apply perm_nil.
  - destruct (f x); simpl.
    + now apply perm_skip.
    + apply Permutation_sym, Permutation_cons_app, Permutation_sym, IH.
Qed.

Lemma own_entries_perm (props : list (string * value)) :
  Permutation (own_entries props) props.
Proof.
  unfold own_entries.
  eapply perm_trans; [| apply (filter_split_perm (fun e => is_array_index (fst e)))].
  apply Permutation_app_tail, sort_entries_perm.
Qed.

Lemma insert_entry_sorted (e : string * value) (l : list (string * value)) :
  StronglySorted index_le l -> StronglySorted index_le (insert_entry e l).
Proof.
  induction 1 as [| x l Hs IH Hall]; simpl.
  - repeat constructor.
  - destruct (N.leb_spec (index_of (fst e)) (index_of (fst x))) as [Hle | Hgt].
    + constructor; [now constructor |].
      constructor; [exact Hle |].
      eapply Forall_impl; [| exact Hall].
      intros y Hy. unfold index_le in *. lia.
    + constructor; [exact IH |].
      eapply Permutation_Forall; [apply Permutation_sym, insert_entry_perm |].
      constructor; [unfold index_le; lia | exact Hall].
Qed.

Lemma sort_entries_sorted (l : list (string * value)) :
  StronglySorted index_le (sort_entries l).
Proof.
  induction l as [| x l IH]; simpl.
  - constructor.
  - now apply insert_entry_sorted.
Qed.

Lemma own_entries_insertion_order (props : list (string * value)) :
  forallb (fun e => negb (is_array_index (fst e))) props = true ->
  own_entries props = props.
Proof.
  unfold own_entries. induction props as [| x props IH]; simpl.
  - reflexivity.
  - intros H. apply andb_true_iff in H as [Hx Hrest].
    specialize (IH Hrest). apply negb_true_iff in Hx. rewrite Hx. simpl.
    assert (Hnone : filter (fun e => is_array_index (fst e)) props = []).
    { clear IH. induction props as [| y props IHp]; simpl in *.
      - reflexivity.
      - apply andb_true_iff in Hrest as [Hy Hrest]. apply negb_true_iff in Hy.
        rewrite Hy. now apply IHp. }
    rewrite Hnone in *. simpl in *. now f_equal.
Qed.

(** ** Project links *)

Lemma project_links_in_document (package_name data : value) :
  (truthy (project_urls data) = true ->
   In (ProjectLinks,
       "## Project Links" ++ nl
       ++ String.concat "" (map link_item (entries_of (project_urls data))) ++ nl)
      (pypi_document package_name data)
   /\ count_occ section_eq_dec (sections (pypi_document package_name data)) ProjectLinks = 1)
  /\ (truthy (project_urls data) = false ->
      ~ In ProjectLinks (sections (pypi_document package_name data))).
Proof.
  unfold pypi_document, opt_block, sections.
  destruct (truthy (get_opt (pypi_info data) "summary")),
    (truthy (get_opt (pypi_info data) "home_page")),
    (truthy (project_urls data)), (truthy (get_opt (pypi_info data) "keywords")),
    (truthy (get_opt (pypi_info data) "description")); simpl;
    (split; [intros H | intros H]; try discriminate;
     first [ split; [tauto | reflexivity] | intuition discriminate ]).
Qed.

(** C1 (amended). In every rendered PyPI document,
    - if [info.project_urls] is absent or [null], there is no
      "Project Links" section;
    - if it is a non-empty mapping, there is exactly one such section: the
      header and one line [- {linkName}: {url}] per entry, in the order
      [Object.entries] enumerates the mapping, which is the link names that
      are array indices in ascending numeric order followed by the other
      link names in insertion order, hence insertion order when no link name
      is an array index. *)
Theorem project_links_section (package_name data : value) (docs : document) :
  pypi_render package_name data = Ok docs ->
  (nullish (project_urls data) = true -> ~ In ProjectLinks (sections docs))
  /\ (forall props,
        project_urls data = VObj props -> props <> [] ->
        In (ProjectLinks,
            "## Project Links" ++ nl
            ++ String.concat ""
                 (map (fun e => "- " ++ fst e ++ ": " ++ to_string (snd e) ++ nl)
                      (own_entries props))
            ++ nl) docs
        /\ count_occ section_eq_dec (sections docs) ProjectLinks = 1
        /\ Permutation (own_entries props) props
        /\ (exists indices,
              own_entries props
              = (indices ++ filter (fun e => negb (is_array_index (fst e))) props)%list
              /\ Forall (fun e => is_array_index (fst e) = true) indices
              /\ StronglySorted index_le indices)
        /\ (forallb (fun e => negb (is_array_index (fst e))) props = true ->
            own_entries props = props)).
Proof.
  intros Hrender. apply (render_of_spec pypiClient) in Hrender as ->.
  cbn [document_of].
  destruct (project_links_in_document package_name data) as [Hyes Hno].
  split.
  - intros Hnull. apply Hno. now destruct (project_urls data).
  - intros props Hprops _.
    destruct Hyes as [Hin Hcount]; [now rewrite Hprops |].
    rewrite Hprops in Hin. simpl in Hin.
    repeat split; try assumption.
    + apply own_entries_perm.
    + exists (sort_entries (filter (fun e => is_array_index (fst e)) props)).
      repeat split.
      * eapply Permutation_Forall; [apply Permutation_sym, sort_entries_perm |].
        apply Forall_forall. intros e He. now apply filter_In in He.
      * apply sort_entries_sorted.
    + apply own_entries_insertion_order.
Qed.

Lemma project_links_section_witness :
  let docs := pypi_document (VStr "demo") pypi_record_with_links in
  (nullish (project_urls pypi_record_with_links) = true ->
   ~ In ProjectLinks (sections docs))
  /\ (forall props,
        project_urls pypi_record_with_links = VObj props -> props <> [] ->
        In (ProjectLinks,
            "## Project Links" ++ nl
            ++ String.concat ""
                 (map (fun e => "- " ++ fst e ++ ": " ++ to_string (snd e) ++ nl)
                      (own_entries props))
            ++ nl) docs
        /\ count_occ section_eq_dec (sections docs) ProjectLinks = 1
        /\ Permutation (own_entries props) props
        /\ (exists indices,
              own_entries props
              = (indices ++ filter (fun e => negb (is_array_index (fst e))) props)%list
              /\ Forall (fun e => is_array_index (fst e) = true) indices
              /\ StronglySorted index_le indices)
        /\ (forallb (fun e => negb (is_array_index (fst e))) props = true ->
            own_entries props = props)).
Proof.
  cbv zeta.
  apply (project_links_section (VStr "demo") pypi_record_with_links).
  reflexivity.
Defined.

Lemma project_links_example :
  project_urls pypi_record_with_links
  = VObj [("Docs", VStr "https://d"); ("Source", VStr "https://s")]
  /\ pypi_render (VStr "demo") pypi_record_with_links
     = Ok [(Title, "# demo v1.0" ++ nl ++ nl);
           (Installation, install_block "pip" (VStr "demo"));
           (ProjectLinks,
            "## Project Links" ++ nl ++ "- Docs: https://d" ++ nl
            ++ "- Source: https://s" ++ nl ++ nl)].
Proof. split; reflexivity. Qed.

(** C1, as stated, fails twice.  A link name that is an array index is
    listed before the link names inserted ahead of it, so the section is not
    the list of the entries in insertion order; and an empty mapping still
    yields a "Project Links" section (its header). *)
Lemma project_links_counterexample :
  (exists docs,
     project_urls pypi_record_numbered_link
     = VObj [("Docs", VStr "https://d"); ("2", VStr "https://s")]
     /\ pypi_render (VStr "demo") pypi_record_numbered_link = Ok docs
     /\ In (ProjectLinks,
            "## Project Links" ++ nl ++ "- 2: https://s" ++ nl
            ++ "- Docs: https://d" ++ nl ++ nl) docs
     /\ ~ In (ProjectLinks,
              "## Project Links" ++ nl
              ++ String.concat ""
                   (map link_item [("Docs", VStr "https://d"); ("2", VStr "https://s")])
              ++ nl) docs)
  /\ (exists docs,
        project_urls pypi_record_no_links = VObj []
        /\ pypi_render (VStr "demo") pypi_record_no_links = Ok docs
        /\ In ProjectLinks (sections docs)
        /\ In (ProjectLinks, "## Project Links" ++ nl ++ nl) docs).
Proof.
  split; eexists; (split; [reflexivity | split; [reflexivity |]]).
  - split.
    + simpl. tauto.
    + simpl. intros [H | [H | [H | []]]]; discriminate H.
  - simpl. tauto.
Qed.

(** ** Replacing the first occurrence *)

Lemma length_append (a b : string) :
  String.length (a ++ b) = String.length a + String.length b.
Proof. induction a; simpl; congruence. Qed.

Lemma prefix_split (p s : string) :
  prefix p s = true -> s = p ++ drop (String.length p) s.
Proof.
  revert s. induction p as [| a p IH]; intros s H.
  - reflexivity.
  - destruct s as [| b s]; simpl in H; [discriminate |].
    destruct (ascii_dec a b) as [-> | _]; [| discriminate].
    simpl. f_equal. now apply IH.
Qed.

Lemma prefix_append (p x : string) : prefix p (p ++ x) = true.
Proof.
  induction p as [| a p IH]; simpl.
  - now destruct x.
  - destruct (ascii_dec a a); [exact IH | contradiction].
Qed.

Lemma includes_nonempty (p s : string) :
  p <> "" -> includes p s = true -> s <> "".
Proof.
  intros Hp H ->. simpl in H. destruct p; [contradiction | discriminate].
Qed.

(** [replace] rewrites the leftmost occurrence of the pattern, at whatever
    position it stands. *)
Lemma str_replace_first (p rep s : string) :
  includes p s = true ->
  exists front back,
    s = front ++ p ++ back
    /\ str_replace p rep s = front ++ rep ++ back
    /\ (forall front' back',
          s = front' ++ p ++ back' -> String.length front <= String.length front').
Proof.
  induction s as [| c s IH]; intros H.
  - simpl in H. rewrite orb_false_r in H.
    exists "", (drop (String.length p) "").
    simpl. rewrite H. repeat split; [now apply prefix_split | lia].
  - destruct (prefix p (String c s)) eqn:Hp.
    + exists "", (drop (String.length p) (String c s)).
      cbn [str_replace]. rewrite Hp.
      repeat split; [now apply prefix_split | simpl; lia].
    + cbn [includes] in H. rewrite Hp in H. simpl in H.
      destruct (IH H) as (front & back & Hs & Hr & Hmin).
      exists (String c front), back. cbn [str_replace]. rewrite Hp.
      repeat split.
      * simpl. now f_equal.
      * simpl. now f_equal.
      * intros front' back' E. destruct front' as [| c' front'].
        -- simpl in E. rewrite E, prefix_append in Hp. discriminate.
        -- simpl in E. injection E as _ E. simpl.
           specialize (Hmin front' back' E). lia.
Qed.

Lemma str_replace_absent (p rep s : string) :
  includes p s = false -> str_replace p rep s = s.
Proof.
  induction s as [| c s IH]; intros H.
  - simpl in *. rewrite orb_false_r in H. now rewrite H.
  - cbn [includes] in H. apply orb_false_iff in H as [Hp Hs].
    cbn [str_replace]. rewrite Hp. f_equal. now apply IH.
Qed.

(** ** The repository section *)

Lemma repository_in_document (package_name data : value) :
  truthy (repository_url data) = true ->
  In (Repository,
      "## Repository" ++ nl ++ shown_url (repository_url data) ++ nl ++ nl)
     (npm_document package_name data).
Proof.
  intros H. unfold npm_document, opt_block. rewrite H.
  destruct (truthy (get_opt data "description")),
    (truthy (get_opt (latest_entry data) "homepage")),
    (has_keywords data), (truthy (get_opt data "readme")); simpl; tauto.
Qed.

(** C10. When the repository URL of the latest version holds ["git+"]
    anywhere, the Repository block of the rendered document shows the URL
    with its leftmost ["git+"] taken out, whether or not it is a prefix; the
    text shown differs from the URL. *)
Theorem repository_git_plus_removed_anywhere
        (package_name data : value) (docs : document) (url : string) :
  npm_render package_name data = Ok docs ->
  repository_url data = VStr url ->
  includes "git+" url = true ->
  exists front back,
    url = front ++ "git+" ++ back
    /\ (forall front' back',
          url = front' ++ "git+" ++ back' ->
          String.length front <= String.length front')
    /\ In (Repository, "## Repository" ++ nl ++ (front ++ back) ++ nl ++ nl) docs
    /\ front ++ back <> url.
Proof.
  intros Hrender Hurl Hinc.
  rewrite npm_render_spec in Hrender.
  destruct (npm_faults package_name data); [discriminate |]. injection Hrender as <-.
  destruct (str_replace_first "git+" "" url Hinc) as (front & back & Hs & Hr & Hmin).
  exists front, back. repeat split; try assumption.
  - pose proof (repository_in_document package_name data) as Hin.
    rewrite Hurl in Hin. cbn [shown_url truthy] in Hin.
    rewrite Hr in Hin. apply Hin.
    apply negb_true_iff, String.eqb_neq.
    now apply (includes_nonempty "git+").
  - intros E. apply (f_equal String.length) in E.
    rewrite Hs, !length_append in E. simpl in E. lia.
Qed.

Lemma repository_git_plus_removed_anywhere_witness :
  exists front back,
    "https://example.com/git+x" = front ++ "git+" ++ back
    /\ (forall front' back',
          "https://example.com/git+x" = front' ++ "git+" ++ back' ->
          String.length front <= String.length front')
    /\ In (Repository, "## Repository" ++ nl ++ (front ++ back) ++ nl ++ nl)
          (npm_document (VStr "pkg") (npm_record_with_url "https://example.com/git+x"))
    /\ front ++ back <> "https://example.com/git+x".
Proof.
  apply (repository_git_plus_removed_anywhere
           (VStr "pkg") (npm_record_with_url "https://example.com/git+x"));
    reflexivity.
Defined.

(** C2, at a URL that holds ["git+"] without starting with it: the claim
    wants the URL shown unchanged, the code shows it without its
    ["git+"].  A URL that starts with ["git+"] loses the prefix, and a URL
    without ["git+"] is shown as it is. *)
Theorem repository_inner_git_plus_altered :
  repository_url (npm_record_with_url "https://example.com/git+x")
  = VStr "https://example.com/git+x"
  /\ prefix "git+" "https://example.com/git+x" = false
  /\ npm_render (VStr "pkg") (npm_record_with_url "https://example.com/git+x")
     = Ok [(Title, "# pkg v1.0.0" ++ nl ++ nl);
           (Installation, install_block "npm" (VStr "pkg"));
           (Repository, "## Repository" ++ nl ++ "https://example.com/x" ++ nl ++ nl)]
  /\ npm_render (VStr "pkg") (npm_record_with_url "git+https://github.com/a/b.git")
     = Ok [(Title, "# pkg v1.0.0" ++ nl ++ nl);
           (Installation, install_block "npm" (VStr "pkg"));
           (Repository, "## Repository" ++ nl ++ "https://github.com/a/b.git" ++ nl ++ nl)]
  /\ (forall url, includes "git+" url = false -> str_replace "git+" "" url = url).
Proof.
  repeat split. apply str_replace_absent.
Qed.

(** ** Records that lack the expected fields *)

Lemma render_schema_mismatch (c : client) (package_name data : value) :
  schema_mismatch c data = true ->
  render_of c package_name data = Throw TypeError.
Proof.
  rewrite render_of_cases.
  destruct c; simpl; intros H.
  - unfold npm_faults. apply orb_true_iff in H as [-> | ->]; simpl;
      now rewrite ?orb_true_r.
  - unfold pypi_faults. now rewrite H.
Qed.

(** C5 (amended). When a registry answers with a successful status and a
    body that has no [dist-tags], or nothing under the key the handler looks
    up in [versions] (the latest tag as a string, ["undefined"] when
    [dist-tags.latest] is absent; an inherited member counts as found), for
    npm, or no [info] for PyPI, the call throws a TypeError that the
    [catch] lets through, after its one request: no McpError and no
    document. *)
Theorem schema_mismatch_uncaught
        (r : request) (up : upstream) (tr : trace) (package_name : value)
        (c : client) (path : string)
        (status : Z) (location : option string) (data : value) :
  endpoint (name r) package_name = Some (c, path) ->
  get (arguments r) "package_name" = Ok package_name ->
  up c path = HttpResponse status location data ->
  successful status ->
  schema_mismatch c data = true ->
  call_tool r up tr = (Throw TypeError, (tr ++ [(c, path)])%list).
Proof.
  intros Hend Hget Hup Hok Hbad.
  rewrite (call_tool_rendered r up tr package_name c path status location data
             Hend Hget Hup Hok).
  now rewrite (render_schema_mismatch c package_name data Hbad).
Qed.

Lemma schema_mismatch_uncaught_witness :
  let r := {| name := "get_npm_docs";
              arguments := VObj [("package_name", VStr "pkg")] |} in
  let body := VObj [("name", VStr "pkg");
                    ("dist-tags", VObj [("latest", VStr "2.0.0")]);
                    ("versions", VObj [("1.0.0", VObj [])])] in
  schema_mismatch npmClient body = true
  /\ call_tool r (fun _ _ => HttpResponse 200 None body) []
     = (Throw TypeError, [(npmClient, "/pkg")]).
Proof.
  cbv zeta. split; [reflexivity |].
  apply (schema_mismatch_uncaught _ _ [] (VStr "pkg") npmClient "/pkg" 200 None
           (VObj [("name", VStr "pkg");
                  ("dist-tags", VObj [("latest", VStr "2.0.0")]);
                  ("versions", VObj [("1.0.0", VObj [])])]));
    try reflexivity.
  unfold successful. lia.
Defined.

(** C5, as stated, fails: a body without [dist-tags.latest] whose
    [versions] has an entry named ["undefined"] is rendered. *)
Lemma schema_mismatch_counterexample :
  let r := {| name := "get_npm_docs";
              arguments := VObj [("package_name", VStr "pkg")] |} in
  let body := VObj [("name", VStr "pkg");
                    ("dist-tags", VObj []);
                    ("versions", VObj [("undefined", VObj [])])] in
  assoc "latest" [] = None
  /\ get_opt (get_opt body "dist-tags") "latest" = VUndefined
  /\ call_tool r (fun _ _ => HttpResponse 200 None body) []
     = (Ok (text_result [(Title, "# pkg vundefined" ++ nl ++ nl);
                         (Installation, install_block "npm" (VStr "pkg"))]),
        [(npmClient, "/pkg")]).
Proof. repeat split. Qed.

(** A tag that names a member the [versions] value inherits finds that
    member, not [undefined], so such a record renders although [versions]
    holds no entry. *)
Lemma inherited_entry_example :
  let body tag versions :=
    VObj [("name", VStr "pkg"); ("dist-tags", VObj [("latest", VStr tag)]);
          ("versions", versions)] in
  latest_entry (body "toString" (VObj [])) = VBuiltin (BFunction "toString")
  /\ latest_entry (body "join" (VArr [])) = VBuiltin (BFunction "join")
  /\ schema_mismatch npmClient (body "join" (VArr [])) = false
  /\ npm_render (VStr "pkg") (body "join" (VArr []))
     = Ok [(Title, "# pkg vjoin" ++ nl ++ nl);
           (Installation, install_block "npm" (VStr "pkg"))]
  /\ npm_render (VStr "pkg") (body "toString" (VObj []))
     = Ok [(Title, "# pkg vtoString" ++ nl ++ nl);
           (Installation, install_block "npm" (VStr "pkg"))].
Proof. repeat split. Qed.

(** * Further properties of the handlers *)

(** ** Dispatch *)

(** X1. The dispatcher and the listing agree: a call is refused with
    MethodNotFound exactly when its tool name is not one the listing
    announces; every listed tool is handled. *)
Theorem dispatch_matches_listing (r : request) (up : upstream) (tr : trace) :
  (exists message,
     fst (call_tool r up tr) = Throw (McpError MethodNotFound message))
  <-> ~ In (name r) (map tool_name list_tools).
Proof.
  rewrite <- listed_In.
  destruct (call_tool_cases r up tr)
    as [[Hl ->] | [(Hl & _ & ->) | [(pkg & Hl & _ & _ & ->)
                                  | (pkg & c & path & Hl & _ & _ & ->)]]];
    rewrite Hl; cbn [fst]; split.
  - intros _. discriminate.
  - intros _. eauto.
  - intros (m & H). discriminate H.
  - intros H. now contradiction H.
  - intros (m & H). discriminate H.
  - intros H. now contradiction H.
  - intros (m & H). exfalso.
    destruct (fetched c path up) as [data | e] eqn:Hf.
    + destruct (render_faults c pkg data); discriminate H.
    + apply fetched_throws in Hf as [-> | (message & ->)]; discriminate H.
  - intros H. now contradiction H.
Qed.

(** X2. A call of a listed tool without an arguments object ([undefined] or
    [null]) throws a TypeError from the destructuring, outside the [try];
    no request is sent. *)
Theorem missing_arguments_type_error (r : request) (up : upstream) (tr : trace) :
  In (name r) (map tool_name list_tools) ->
  nullish (arguments r) = true ->
  call_tool r up tr = (Throw TypeError, tr).
Proof.
  intros Hin Hnull. apply call_tool_no_arguments; [now apply listed_In | assumption].
Qed.

Lemma missing_arguments_type_error_witness :
  call_tool {| name := "get_pypi_docs"; arguments := VUndefined |}
    (fun _ _ => HttpResponse 200 None pypi_record_with_links) [(npmClient, "/left-pad")]
  = (Throw TypeError, [(npmClient, "/left-pad")]).
Proof.
  apply (missing_arguments_type_error
           {| name := "get_pypi_docs"; arguments := VUndefined |}).
  - simpl. tauto.
  - reflexivity.
Defined.


(** X4. Whatever a call throws is a TypeError, the MethodNotFound error of
    an unlisted tool, or the InternalError that wraps the message of the
    AxiosError its [get] rejected with: too many redirects, or the transport
    failure of one of the requests it sent.  An AxiosError never leaves the
    handler. *)
Theorem thrown_exceptions
        (r : request) (up : upstream) (tr : trace) (e : exn) :
  fst (call_tool r up tr) = Throw e ->
  isAxiosError e = false
  /\ (e = TypeError
      \/ (~ In (name r) (map tool_name list_tools)
          /\ e = McpError MethodNotFound ("Unknown tool: " ++ name r))
      \/ (exists package_name c path message,
            get (arguments r) "package_name" = Ok package_name
            /\ endpoint (name r) package_name = Some (c, path)
            /\ fetched c path up = Throw (AxiosError message)
            /\ (message = "Maximum number of redirects exceeded"
                \/ exists last,
                     In (c, last) (sent c path up)
                     /\ transport_failure (up c last) = Some message)
            /\ e = McpError InternalError
                     ("Failed to fetch " ++ registry_label c
                      ++ " package info: " ++ message))).
Proof.
  intros H.
  destruct (call_tool_cases r up tr)
    as [[Hl E] | [(Hl & Hnull & E) | [(pkg & Hl & Hget & Hend & E)
                                     | (pkg & c & path & Hl & Hget & Hend & E)]]];
    rewrite E in H; cbn [fst] in H.
  - injection H as <-. split; [reflexivity |]. right; left.
    split; [| reflexivity]. rewrite <- listed_In, Hl. discriminate.
  - injection H as <-. auto.
  - injection H as <-. auto.
  - destruct (fetched c path up) as [data | e'] eqn:Hf.
    + destruct (render_faults c pkg data); [| discriminate].
      injection H as <-. auto.
    + pose proof (endpoint_route _ _ _ _ Hend) as (_ & _ & Hp).
      destruct (fetched_follow c path up Hp) as [Hfst Hsent].
      destruct (follow_outcome maxRedirects c path up) as (_ & _ & _ & Hthrow).
      rewrite Hfst in Hf. destruct (Hthrow e' Hf) as (m & -> & Hm).
      cbn [isAxiosError error_message] in H. injection H as <-.
      split; [reflexivity |]. right; right.
      exists pkg, c, path, m. rewrite Hfst, Hsent. auto.
Qed.

Lemma thrown_exceptions_witness :
  let e := McpError InternalError
             "Failed to fetch npm package info: getaddrinfo ENOTFOUND registry.npmjs.org" in
  let r := {| name := "get_npm_docs";
              arguments := VObj [("package_name", VStr "left-pad")] |} in
  let up : upstream := fun _ _ => NetworkFailure "getaddrinfo ENOTFOUND registry.npmjs.org" in
  isAxiosError e = false
  /\ (e = TypeError
      \/ (~ In (name r) (map tool_name list_tools)
          /\ e = McpError MethodNotFound ("Unknown tool: " ++ name r))
      \/ (exists package_name c path message,
            get (arguments r) "package_name" = Ok package_name
            /\ endpoint (name r) package_name = Some (c, path)
            /\ fetched c path up = Throw (AxiosError message)
            /\ (message = "Maximum number of redirects exceeded"
                \/ exists last,
                     In (c, last) (sent c path up)
                     /\ transport_failure (up c last) = Some message)
            /\ e = McpError InternalError
                     ("Failed to fetch " ++ registry_label c
                      ++ " package info: " ++ message))).
Proof.
  cbv zeta.
  apply (thrown_exceptions
           {| name := "get_npm_docs";
              arguments := VObj [("package_name", VStr "left-pad")] |}
           (fun _ _ => NetworkFailure "getaddrinfo ENOTFOUND registry.npmjs.org") []).
  reflexivity.
Defined.

(** X5. A call returns a result exactly when it has a package name to
    send a request for (a listed tool, an arguments object, a name that can
    be converted and a path that is a URL), its [get] resolves, after the
    redirects, with a body from a status in 200..299, and the renderer does
    not throw on that body; the result is then a single content block of
    type [text] holding the document. *)
Theorem call_succeeds_iff
        (r : request) (up : upstream) (tr : trace) (res : tool_result) :
  fst (call_tool r up tr) = Ok res
  <-> exists package_name c path data,
        get (arguments r) "package_name" = Ok package_name
        /\ endpoint (name r) package_name = Some (c, path)
        /\ fetched c path up = Ok data
        /\ render_faults c package_name data = false
        /\ res = {| content :=
                      [ {| type := "text";
                           text := document_text (document_of c package_name data) |} ] |}.
Proof.
  split.
  - intros H.
    destruct (call_tool_cases r up tr)
      as [[Hl E] | [(Hl & Hnull & E) | [(pkg & Hl & Hget & Hend & E)
                                       | (pkg & c & path & Hl & Hget & Hend & E)]]];
      rewrite E in H; cbn [fst] in H; try discriminate.
    destruct (fetched c path up) as [data | e] eqn:Hf.
    + destruct (render_faults c pkg data) eqn:Hbad; [discriminate |].
      injection H as <-. exists pkg, c, path, data. auto.
    + destruct (isAxiosError e); discriminate.
  - intros (pkg & c & path & data & Hget & Hend & Hf & Hbad & ->).
    rewrite (call_tool_fetch r up tr pkg c path Hend Hget), Hf.
    now rewrite render_of_cases, Hbad.
Qed.

Lemma fetched_after_redirect :
  let up : upstream := fun _ target =>
    if target =? "/a"
    then HttpResponse 301 (Some "/b") VNull
    else HttpResponse 200 None sparse_npm_record in
  fetched npmClient "/a" up = Ok sparse_npm_record
  /\ sent npmClient "/a" up = [(npmClient, "/a"); (npmClient, "/b")].
Proof. split; reflexivity. Qed.

(** ** When the renderers throw *)

Lemma faults_iff {A : Type} (b : bool) (d : A) :
  (if b then Throw TypeError else Ok d) = Throw TypeError <-> b = true.
Proof. destruct b; split; congruence. Qed.

Lemma keywords_fault_iff (data : value) :
  let keywords := get_opt (latest_entry data) "keywords" in
  keywords_fault data = true
  <-> greater_than_zero (get_opt keywords "length") = Throw TypeError
      \/ (greater_than_zero (get_opt keywords "length") = Ok true
          /\ (is_array keywords = false \/ printable keywords = false)).
Proof.
  cbv zeta. unfold keywords_fault.
  destruct (greater_than_zero _) as [[|] | e] eqn:Hgt.
  - rewrite negb_true_iff, andb_false_iff.
    split; [intros H; right; now split | intros [H | [_ H]]; [discriminate | exact H]].
  - split; [discriminate | intros [H | [H _]]; discriminate].
  - rewrite (greater_than_zero_throws _ _ Hgt). split; auto.
Qed.

(** X6. The PyPI renderer throws, and then a TypeError, exactly when the
    body has no [info] (absent or [null]) or a value it prints cannot be
    converted to a string: the name, the version, the package name, a
    truthy summary, home page, keywords or description, or the URL of a
    project link.  Every other body renders. *)
Theorem pypi_render_total (package_name data : value) :
  let info := get_opt data "info" in
  (pypi_render package_name data = Throw TypeError
   <-> nullish info = true
       \/ printable (get_opt info "name") = false
       \/ printable (get_opt info "version") = false
       \/ unshowable (get_opt info "summary") = true
       \/ printable package_name = false
       \/ unshowable (get_opt info "home_page") = true
       \/ (truthy (get_opt info "project_urls") = true
           /\ forallb (fun e => printable (snd e))
                      (entries_of (get_opt info "project_urls")) = false)
       \/ unshowable (get_opt info "keywords") = true
       \/ unshowable (get_opt info "description") = true)
  /\ (forall e, pypi_render package_name data = Throw e -> e = TypeError)
  /\ (pypi_render package_name data <> Throw TypeError ->
      exists docs, pypi_render package_name data = Ok docs).
Proof.
  cbv zeta. rewrite pypi_render_spec. split; [| split].
  - rewrite faults_iff. unfold pypi_faults, project_urls, pypi_info.
    rewrite !orb_true_iff, !andb_true_iff, !negb_true_iff. tauto.
  - intros e H. destruct (pypi_faults package_name data); congruence.
  - intros H. destruct (pypi_faults package_name data);
      [now contradiction H | eauto].
Qed.

(** X7. The npm renderer throws, and then a TypeError, exactly on these
    bodies: no [dist-tags]; nothing under the looked-up key of [versions];
    a truthy [repository.url] that is not a string; a [keywords] whose
    [length] compares above zero but that is not an array; or a value it
    prints or compares that cannot be converted (the latest tag, the name,
    the package name, a truthy description, homepage or readme, the
    [length] of the keywords, an element of the keywords).  Every other
    body renders. *)
Theorem npm_render_faults (package_name data : value) :
  let entry := latest_entry data in
  let url := get_opt (get_opt entry "repository") "url" in
  let keywords := get_opt entry "keywords" in
  (npm_render package_name data = Throw TypeError
   <-> nullish (get_opt data "dist-tags") = true
       \/ printable (get_opt (get_opt data "dist-tags") "latest") = false
       \/ nullish entry = true
       \/ printable (get_opt data "name") = false
       \/ unshowable (get_opt data "description") = true
       \/ printable package_name = false
       \/ unshowable (get_opt entry "homepage") = true
       \/ (truthy url = true /\ is_string url = false)
       \/ greater_than_zero (get_opt keywords "length") = Throw TypeError
       \/ (greater_than_zero (get_opt keywords "length") = Ok true
           /\ (is_array keywords = false \/ printable keywords = false))
       \/ unshowable (get_opt data "readme") = true)
  /\ (forall e, npm_render package_name data = Throw e -> e = TypeError)
  /\ (npm_render package_name data <> Throw TypeError ->
      exists docs, npm_render package_name data = Ok docs).
Proof.
  cbv zeta. rewrite npm_render_spec. split; [| split].
  - rewrite faults_iff. unfold npm_faults, repository_url, latest_version.
    rewrite !orb_true_iff, !andb_true_iff, !negb_true_iff, keywords_fault_iff.
    tauto.
  - intros e H. destruct (npm_faults package_name data); congruence.
  - intros H. destruct (npm_faults package_name data);
      [now contradiction H | eauto].
Qed.

Lemma string_has_length (s : string) :
  s <> "" -> greater_than_zero (get_opt (VStr s) "length") = Ok true.
Proof.
  intros Hs. unfold get_opt, greater_than_zero. simpl.
  destruct s; [contradiction | reflexivity].
Qed.

(** X8. An npm record whose [keywords] is a non-empty string instead of an
    array, or whose [repository.url] is truthy without being a string, is
    fetched but not rendered: the call throws a TypeError, which the [catch]
    lets through, and no document or McpError comes back. *)
Theorem malformed_optional_field_uncaught
        (r : request) (up : upstream) (tr : trace) (package_name : value)
        (path : string) (status : Z) (location : option string) (data : value) :
  endpoint (name r) package_name = Some (npmClient, path) ->
  get (arguments r) "package_name" = Ok package_name ->
  up npmClient path = HttpResponse status location data ->
  successful status ->
  (exists s, get_opt (latest_entry data) "keywords" = VStr s /\ s <> "")
  \/ (truthy (repository_url data) = true /\ is_string (repository_url data) = false) ->
  call_tool r up tr = (Throw TypeError, (tr ++ [(npmClient, path)])%list).
Proof.
  intros Hend Hget Hup Hok Hbad.
  rewrite (call_tool_rendered r up tr package_name _ _ status location data
             Hend Hget Hup Hok).
  rewrite render_of_cases. simpl. unfold npm_faults, keywords_fault.
  destruct Hbad as [(s & Hkw & Hs) | [Hurl Hstr]].
  - rewrite Hkw, (string_has_length s Hs). simpl. now rewrite !orb_true_r.
  - rewrite Hurl, Hstr. simpl. now rewrite !orb_true_r.
Qed.

Lemma malformed_optional_field_uncaught_witness :
  let body := VObj [("name", VStr "old-package");
                    ("dist-tags", VObj [("latest", VStr "0.0.1")]);
                    ("versions",
                     VObj [("0.0.1", VObj [("keywords", VStr "util, tool")])])] in
  call_tool {| name := "get_npm_docs";
               arguments := VObj [("package_name", VStr "old-package")] |}
    (fun _ _ => HttpResponse 200 None body) []
  = (Throw TypeError, [(npmClient, "/old-package")]).
Proof.
  cbv zeta.
  apply (malformed_optional_field_uncaught
           {| name := "get_npm_docs";
              arguments := VObj [("package_name", VStr "old-package")] |}
           _ [] (VStr "old-package") "/old-package" 200 None
           (VObj [("name", VStr "old-package");
                  ("dist-tags", VObj [("latest", VStr "0.0.1")]);
                  ("versions",
                   VObj [("0.0.1", VObj [("keywords", VStr "util, tool")])])]));
    try reflexivity.
  - unfold successful. lia.
  - left. exists "util, tool". split; [reflexivity | discriminate].
Defined.

(** ** Which sections a document has *)

Lemma npm_document_sections (package_name data : value) :
  let present s := In s (sections (npm_document package_name data)) in
  present Title /\ present Installation
  /\ (present Description <-> truthy (get_opt data "description") = true)
  /\ (present Homepage <-> truthy (get_opt (latest_entry data) "homepage") = true)
  /\ (present Repository <-> truthy (repository_url data) = true)
  /\ (present Keywords <-> has_keywords data = true)
  /\ (present Documentation <-> truthy (get_opt data "readme") = true)
  /\ ~ present Summary /\ ~ present ProjectLinks.
Proof.
  cbv zeta. unfold npm_document, opt_block, sections.
  destruct (truthy (get_opt data "description")),
    (truthy (get_opt (latest_entry data) "homepage")),
    (truthy (repository_url data)), (has_keywords data),
    (truthy (get_opt data "readme")); simpl;
    intuition congruence.
Qed.

Lemma homepage_in_document (c : client) (package_name data : value) (homepage : value) :
  homepage = match c with
             | npmClient => get_opt (latest_entry data) "homepage"
             | pypiClient => get_opt (pypi_info data) "home_page"
             end ->
  truthy homepage = true ->
  In (Homepage, "## Homepage" ++ nl ++ to_string homepage ++ nl ++ nl)
     (document_of c package_name data).
Proof.
  intros -> H. destruct c; simpl; unfold npm_document, pypi_document, opt_block;
    rewrite H.
  - destruct (truthy (get_opt data "description")),
      (truthy (repository_url data)), (has_keywords data),
      (truthy (get_opt data "readme")); simpl; tauto.
  - destruct (truthy (get_opt (pypi_info data) "summary")),
      (truthy (project_urls data)), (truthy (get_opt (pypi_info data) "keywords")),
      (truthy (get_opt (pypi_info data) "description")); simpl; tauto.
Qed.

(** X9. In a rendered npm document the title and the installation are always
    there and each optional section is there exactly when its field is
    truthy: the description, the homepage of the latest version, its
    [repository.url], a [keywords] of positive [length], the readme.  An
    empty string, [null] or a missing field leaves the section out; the
    homepage is printed as it is. *)
Theorem npm_sections_present (package_name data : value) (docs : document) :
  npm_render package_name data = Ok docs ->
  let entry := latest_entry data in
  let present s := In s (sections docs) in
  present Title /\ present Installation
  /\ (present Description <-> truthy (get_opt data "description") = true)
  /\ (present Homepage <-> truthy (get_opt entry "homepage") = true)
  /\ (present Repository
      <-> truthy (get_opt (get_opt entry "repository") "url") = true)
  /\ (present Keywords
      <-> greater_than_zero (get_opt (get_opt entry "keywords") "length") = Ok true)
  /\ (present Documentation <-> truthy (get_opt data "readme") = true)
  /\ (truthy (get_opt entry "homepage") = true ->
      In (Homepage,
          "## Homepage" ++ nl ++ to_string (get_opt entry "homepage") ++ nl ++ nl)
         docs).
Proof.
  intros H. apply (render_of_spec npmClient) in H as ->. cbn [document_of].
  cbv zeta.
  destruct (npm_document_sections package_name data)
    as (H1 & H2 & H3 & H4 & H5 & H6 & H7 & _).
  assert (Hk : has_keywords data = true
               <-> greater_than_zero
                     (get_opt (get_opt (latest_entry data) "keywords") "length")
                   = Ok true).
  { unfold has_keywords.
    destruct (greater_than_zero _) as [[|] | e]; split; congruence. }
  rewrite Hk in H6.
  repeat split; try assumption; try apply H3; try apply H4; try apply H5;
    try apply H6; try apply H7.
  intros Hh.
  exact (homepage_in_document npmClient package_name data _ eq_refl Hh).
Qed.

Lemma npm_sections_present_witness :
  let docs := npm_document (VStr "a") sparse_npm_record in
  let entry := latest_entry sparse_npm_record in
  let present s := In s (sections docs) in
  present Title /\ present Installation
  /\ (present Description <-> truthy (get_opt sparse_npm_record "description") = true)
  /\ (present Homepage <-> truthy (get_opt entry "homepage") = true)
  /\ (present Repository
      <-> truthy (get_opt (get_opt entry "repository") "url") = true)
  /\ (present Keywords
      <-> greater_than_zero (get_opt (get_opt entry "keywords") "length") = Ok true)
  /\ (present Documentation <-> truthy (get_opt sparse_npm_record "readme") = true)
  /\ (truthy (get_opt entry "homepage") = true ->
      In (Homepage,
          "## Homepage" ++ nl ++ to_string (get_opt entry "homepage") ++ nl ++ nl)
         docs).
Proof.
  apply (npm_sections_present (VStr "a") sparse_npm_record). reflexivity.
Defined.

Lemma pypi_document_sections (package_name data : value) :
  let info := pypi_info data in
  let present s := In s (sections (pypi_document package_name data)) in
  present Title /\ present Installation
  /\ (present Summary <-> truthy (get_opt info "summary") = true)
  /\ (present Homepage <-> truthy (get_opt info "home_page") = true)
  /\ (present Keywords <-> truthy (get_opt info "keywords") = true)
  /\ (present Documentation <-> truthy (get_opt info "description") = true)
  /\ ~ present Description /\ ~ present Repository.
Proof.
  cbv zeta. unfold pypi_document, opt_block, sections.
  destruct (truthy (get_opt (pypi_info data) "summary")),
    (truthy (get_opt (pypi_info data) "home_page")),
    (truthy (project_urls data)), (truthy (get_opt (pypi_info data) "keywords")),
    (truthy (get_opt (pypi_info data) "description")); simpl;
    intuition congruence.
Qed.

Lemma pypi_keywords_in_document (package_name data : value) :
  truthy (get_opt (pypi_info data) "keywords") = true ->
  In (Keywords,
      "## Keywords" ++ nl ++ to_string (get_opt (pypi_info data) "keywords")
      ++ nl ++ nl)
     (pypi_document package_name data).
Proof.
  intros H. unfold pypi_document, opt_block. rewrite H.
  destruct (truthy (get_opt (pypi_info data) "summary")),
    (truthy (get_opt (pypi_info data) "home_page")),
    (truthy (project_urls data)),
    (truthy (get_opt (pypi_info data) "description")); simpl; tauto.
Qed.

(** X10. In a rendered PyPI document the title and the installation are
    always there; the summary, the homepage, the keywords and the
    documentation are there exactly when [info.summary], [info.home_page],
    [info.keywords] and [info.description] are truthy.  The keywords are
    printed as the one string they are: nothing is split or joined. *)
Theorem pypi_sections_present (package_name data : value) (docs : document) :
  pypi_render package_name data = Ok docs ->
  let info := get_opt data "info" in
  let present s := In s (sections docs) in
  present Title /\ present Installation
  /\ (present Summary <-> truthy (get_opt info "summary") = true)
  /\ (present Homepage <-> truthy (get_opt info "home_page") = true)
  /\ (present Keywords <-> truthy (get_opt info "keywords") = true)
  /\ (present Documentation <-> truthy (get_opt info "description") = true)
  /\ (forall s, get_opt info "keywords" = VStr s -> s <> "" ->
      In (Keywords, "## Keywords" ++ nl ++ s ++ nl ++ nl) docs).
Proof.
  intros H. apply (render_of_spec pypiClient) in H as ->. cbn [document_of].
  cbv zeta. fold (pypi_info data).
  destruct (pypi_document_sections package_name data)
    as (H1 & H2 & H3 & H4 & H5 & H6 & _).
  repeat split; try assumption; try apply H3; try apply H4; try apply H5;
    try apply H6.
  intros s Hs Hne.
  pose proof (pypi_keywords_in_document package_name data) as Hin.
  rewrite Hs in Hin. apply Hin. simpl.
  now apply negb_true_iff, String.eqb_neq.
Qed.

Lemma pypi_sections_present_witness :
  let data := VObj [("info", VObj [("name", VStr "demo"); ("version", VStr "1.0");
                                  ("summary", VStr "");
                                  ("keywords", VStr "http, client,rest")])] in
  let docs := pypi_document (VStr "demo") data in
  let info := get_opt data "info" in
  let present s := In s (sections docs) in
  present Title /\ present Installation
  /\ (present Summary <-> truthy (get_opt info "summary") = true)
  /\ (present Homepage <-> truthy (get_opt info "home_page") = true)
  /\ (present Keywords <-> truthy (get_opt info "keywords") = true)
  /\ (present Documentation <-> truthy (get_opt info "description") = true)
  /\ (forall s, get_opt info "keywords" = VStr s -> s <> "" ->
      In (Keywords, "## Keywords" ++ nl ++ s ++ nl ++ nl) docs).
Proof.
  cbv zeta.
  apply (pypi_sections_present (VStr "demo")
           (VObj [("info", VObj [("name", VStr "demo"); ("version", VStr "1.0");
                                 ("summary", VStr "");
                                 ("keywords", VStr "http, client,rest")])])).
  reflexivity.
Defined.

(** ** Keywords of an npm record *)

Lemma array_join_strings (sep : string) (ks : list string) :
  array_join sep (map VStr ks) = String.concat sep ks.
Proof.
  unfold array_join. f_equal. rewrite map_map. simpl. apply map_id.
Qed.

Lemma array_has_length (elems : list value) :
  greater_than_zero (get_opt (VArr elems) "length")
  = Ok (negb (Nat.eqb (List.length elems) 0)).
Proof.
  unfold get_opt, greater_than_zero. simpl. now destruct elems.
Qed.

Lemma keywords_in_document (package_name data : value) :
  has_keywords data = true ->
  In (Keywords,
      "## Keywords" ++ nl
      ++ joined_keywords (get_opt (latest_entry data) "keywords") ++ nl ++ nl)
     (npm_document package_name data).
Proof.
  intros H. unfold npm_document, opt_block. rewrite H.
  destruct (truthy (get_opt data "description")),
    (truthy (get_opt (latest_entry data) "homepage")),
    (truthy (repository_url data)), (truthy (get_opt data "readme")); simpl; tauto.
Qed.

(** X11. When the [keywords] of the latest version is an array, a rendered
    npm document has a Keywords section exactly when the array is not
    empty, and the section prints the elements joined with a comma and a
    space ([null] elements as nothing); an array of strings is printed as
    those strings with [", "] between them. *)
Theorem npm_keywords_joined
        (package_name data : value) (docs : document) (elems : list value) :
  npm_render package_name data = Ok docs ->
  get_opt (latest_entry data) "keywords" = VArr elems ->
  (elems = [] -> ~ In Keywords (sections docs))
  /\ (elems <> [] ->
      In (Keywords,
          "## Keywords" ++ nl
          ++ String.concat ", "
               (map (fun e => if nullish e then "" else to_string e) elems)
          ++ nl ++ nl) docs)
  /\ (forall ks, elems = map VStr ks ->
      String.concat ", " (map (fun e => if nullish e then "" else to_string e) elems)
      = String.concat ", " ks).
Proof.
  intros H Hkw. apply (render_of_spec npmClient) in H as ->. cbn [document_of].
  assert (Hhas : has_keywords data = negb (Nat.eqb (List.length elems) 0)).
  { unfold has_keywords. now rewrite Hkw, array_has_length. }
  split; [| split].
  - intros ->. simpl in Hhas.
    destruct (npm_document_sections package_name data)
      as (_ & _ & _ & _ & _ & H6 & _).
    intros Hin. apply H6 in Hin. congruence.
  - intros Hne.
    pose proof (keywords_in_document package_name data) as Hin.
    rewrite Hkw in Hin. apply Hin. rewrite Hhas. now destruct elems.
  - intros ks ->. apply (array_join_strings ", ").
Qed.

Lemma npm_keywords_joined_witness :
  let docs := npm_document (VStr "b") full_npm_record in
  let elems := [VStr "k1"; VStr "k2"] in
  (elems = [] -> ~ In Keywords (sections docs))
  /\ (elems <> [] ->
      In (Keywords,
          "## Keywords" ++ nl
          ++ String.concat ", "
               (map (fun e => if nullish e then "" else to_string e) elems)
          ++ nl ++ nl) docs)
  /\ (forall ks, elems = map VStr ks ->
      String.concat ", " (map (fun e => if nullish e then "" else to_string e) elems)
      = String.concat ", " ks).
Proof.
  cbv zeta.
  apply (npm_keywords_joined (VStr "b") full_npm_record); reflexivity.
Defined.

(** ** The repository prefix *)

Lemma str_replace_unfold (p rep s : string) :
  str_replace p rep s
  = if prefix p s then rep ++ drop (String.length p) s
    else match s with
         | EmptyString => EmptyString
         | String c s' => String c (str_replace p rep s')
         end.
Proof. now destruct s. Qed.

Lemma drop_append (p x : string) : drop (String.length p) (p ++ x) = x.
Proof. induction p; simpl; [reflexivity | assumption]. Qed.

Lemma str_replace_prefix (p rep x : string) :
  str_replace p rep (p ++ x) = rep ++ x.
Proof.
  now rewrite str_replace_unfold, prefix_append, drop_append.
Qed.

(** X12. In a rendered npm document, a repository URL that starts with
    ["git+"] is shown without that prefix, taken off once (a second ["git+"]
    after it stays), and a non-empty URL with no ["git+"] in it is shown as
    it is. *)
Theorem repository_prefix_stripped_once
        (package_name data : value) (docs : document) (url : string) :
  npm_render package_name data = Ok docs ->
  get_opt (get_opt (latest_entry data) "repository") "url" = VStr url ->
  url <> "" ->
  (forall rest, url = "git+" ++ rest ->
     In (Repository, "## Repository" ++ nl ++ rest ++ nl ++ nl) docs)
  /\ (includes "git+" url = false ->
      In (Repository, "## Repository" ++ nl ++ url ++ nl ++ nl) docs).
Proof.
  intros H Hurl Hne. apply (render_of_spec npmClient) in H as ->. cbn [document_of].
  pose proof (repository_in_document package_name data) as Hin.
  unfold repository_url in Hin. rewrite Hurl in Hin. cbn [shown_url truthy] in Hin.
  assert (Ht : negb (url =? "") = true).
  { now apply negb_true_iff, String.eqb_neq. }
  specialize (Hin Ht). split.
  - intros rest ->. now rewrite (str_replace_prefix "git+" "" rest) in Hin.
  - intros Hno. now rewrite (str_replace_absent _ _ _ Hno) in Hin.
Qed.

Lemma repository_prefix_stripped_once_witness :
  let url := "git+ssh://git@host/git+mirror.git" in
  let docs := npm_document (VStr "pkg") (npm_record_with_url url) in
  (forall rest, url = "git+" ++ rest ->
     In (Repository, "## Repository" ++ nl ++ rest ++ nl ++ nl) docs)
  /\ (includes "git+" url = false ->
      In (Repository, "## Repository" ++ nl ++ url ++ nl ++ nl) docs).
Proof.
  cbv zeta.
  apply (repository_prefix_stripped_once (VStr "pkg")
           (npm_record_with_url "git+ssh://git@host/git+mirror.git"));
    [reflexivity | reflexivity | discriminate].
Defined.

(** ** The first and the last line *)

Lemma document_text_cons (b : block) (docs : document) :
  document_text (b :: docs) = snd b ++ document_text docs.
Proof. unfold document_text. simpl map. apply concat_empty_cons. Qed.

Lemma document_text_last (docs : document) (s : section) (t : string) :
  document_text (docs ++ [(s, t)])%list = document_text docs ++ t.
Proof.
  unfold document_text. rewrite map_app, concat_empty_app. simpl.
  reflexivity.
Qed.

Lemma document_of_frame (c : client) (package_name data : value) :
  exists middle,
    document_of c package_name data
    = ((Title, title_of c data) :: middle
       ++ opt_block (truthy (readme_of c data)) Documentation
            ("## Documentation" ++ nl ++ nl ++ to_string (readme_of c data) ++ nl))%list
    /\ ~ In Documentation (sections middle).
Proof.
  destruct c; simpl; unfold npm_document, pypi_document, opt_block.
  - exists (List.concat
              [ opt_block (truthy (get_opt data "description")) Description
                  (to_string (get_opt data "description") ++ nl ++ nl);
                [(Installation, install_block "npm" package_name)];
                opt_block (truthy (get_opt (latest_entry data) "homepage")) Homepage
                  ("## Homepage" ++ nl
                   ++ to_string (get_opt (latest_entry data) "homepage") ++ nl ++ nl);
                opt_block (truthy (repository_url data)) Repository
                  ("## Repository" ++ nl ++ shown_url (repository_url data) ++ nl ++ nl);
                opt_block (has_keywords data) Keywords
                  ("## Keywords" ++ nl
                   ++ joined_keywords (get_opt (latest_entry data) "keywords")
                   ++ nl ++ nl) ]).
    unfold opt_block.
    destruct (truthy (get_opt data "description")),
      (truthy (get_opt (latest_entry data) "homepage")),
      (truthy (repository_url data)), (has_keywords data),
      (truthy (get_opt data "readme")); simpl; (split; [reflexivity |]);
      intuition congruence.
  - exists (List.concat
              [ opt_block (truthy (get_opt (pypi_info data) "summary")) Summary
                  (to_string (get_opt (pypi_info data) "summary") ++ nl ++ nl);
                [(Installation, install_block "pip" package_name)];
                opt_block (truthy (get_opt (pypi_info data) "home_page")) Homepage
                  ("## Homepage" ++ nl
                   ++ to_string (get_opt (pypi_info data) "home_page") ++ nl ++ nl);
                opt_block (truthy (project_urls data)) ProjectLinks
                  ("## Project Links" ++ nl
                   ++ String.concat ""
                        (map link_item (entries_of (project_urls data))) ++ nl);
                opt_block (truthy (get_opt (pypi_info data) "keywords")) Keywords
                  ("## Keywords" ++ nl
                   ++ to_string (get_opt (pypi_info data) "keywords") ++ nl ++ nl) ]).
    unfold opt_block.
    destruct (truthy (get_opt (pypi_info data) "summary")),
      (truthy (get_opt (pypi_info data) "home_page")),
      (truthy (project_urls data)), (truthy (get_opt (pypi_info data) "keywords")),
      (truthy (get_opt (pypi_info data) "description")); simpl; (split; [reflexivity |]);
      intuition congruence.
Qed.

(** X13. The text of every rendered document begins with the title line,
    [# {name} v{version}] and an empty line, built from the name and the
    version of the record (not from the requested package name).  When the
    readme (npm) or [info.description] (PyPI) is truthy the text ends with
    the Documentation section, the field as it is and one line feed, and
    nothing follows it; otherwise the document has no such section. *)
Theorem document_first_and_last
        (c : client) (package_name data : value) (docs : document) :
  render_of c package_name data = Ok docs ->
  (exists rest, document_text docs = title_of c data ++ rest)
  /\ (truthy (readme_of c data) = true ->
      exists front,
        document_text docs
        = front ++ "## Documentation" ++ nl ++ nl
          ++ to_string (readme_of c data) ++ nl)
  /\ (truthy (readme_of c data) = false -> ~ In Documentation (sections docs)).
Proof.
  intros H. apply render_of_spec in H as ->.
  destruct (document_of_frame c package_name data) as (middle & -> & Hmid).
  split; [| split].
  - eexists. now rewrite document_text_cons.
  - intros ->. exists (title_of c data ++ document_text middle).
    unfold opt_block. rewrite app_comm_cons.
    now rewrite document_text_last, document_text_cons, !append_assoc.
  - intros ->. unfold opt_block, sections. rewrite app_nil_r. simpl.
    intros [Hd | Hd]; [discriminate | now apply Hmid].
Qed.

Lemma document_first_and_last_witness :
  let docs := document_of npmClient (VStr "a") sparse_npm_record in
  (exists rest, document_text docs = title_of npmClient sparse_npm_record ++ rest)
  /\ (truthy (readme_of npmClient sparse_npm_record) = true ->
      exists front,
        document_text docs
        = front ++ "## Documentation" ++ nl ++ nl
          ++ to_string (readme_of npmClient sparse_npm_record) ++ nl)
  /\ (truthy (readme_of npmClient sparse_npm_record) = false ->
      ~ In Documentation (sections docs)).
Proof.
  cbv zeta.
  apply (document_first_and_last npmClient (VStr "a") sparse_npm_record).
  reflexivity.
Defined.


(** ** Conversions that throw, paths that are no URL *)

(** A value with an own [toString] cannot be printed; a [length] given as a
    hexadecimal string compares above zero; a package name that starts with
    a slash, or an empty one for PyPI, gives a path of two slashes, and
    nothing is sent. *)
Lemma conversion_examples :
  let call tool package_name :=
    call_tool {| name := tool; arguments := VObj [("package_name", package_name)] |} in
  let answer data : upstream := fun _ _ => HttpResponse 200 None data in
  pypi_render (VStr "demo")
    (VObj [("info", VObj [("name", VObj [("toString", VNum (number_of_nat 1))]);
                          ("version", VStr "1.0")])])
  = Throw TypeError
  /\ greater_than_zero (VStr "0x10") = Ok true
  /\ greater_than_zero (VStr "1e-400") = Ok false
  /\ greater_than_zero (VObj [("toString", VNull)]) = Throw TypeError
  /\ call "get_npm_docs" (VStr "/x") (answer sparse_npm_record) []
     = (Throw TypeError, [])
  /\ call "get_pypi_docs" (VStr "") (answer pypi_record_with_links) []
     = (Throw TypeError, [])
  /\ call "get_npm_docs" (VObj [("toString", VNull)]) (answer sparse_npm_record) []
     = (Throw TypeError, []).
Proof. repeat split. Qed.
